(** * Book catalogue browser: pagination, filtering and the detail overlay

    A shallow embedding of [scripts.js].  The script keeps two module
    variables ([matches], [page]) and mutates the document through the
    [html] handles; both are threaded here as one explicit [State].

    Strings are sequences of UTF-16 code units; the embedding covers the
    code units below 256, which is where [ascii] lives.  Numbers are the
    integers the script computes with, as [Z]. *)

From Stdlib Require Import ZArith List String Ascii Bool Lia DecimalString.
Import ListNotations.

Local Open Scope Z_scope.
Local Open Scope list_scope.

(** ** Strings as the script uses them *)

Module JsString.

(** White space and line terminators removed by [String.prototype.trim]. *)
Definition isWhiteSpace (c : ascii) : bool :=
  let n := N_of_ascii c in
  (((9 <=? n) && (n <=? 13)) || (n =? 32) || (n =? 160))%N.

(** One code unit of [String.prototype.toLowerCase]. *)
Definition lowerUnit (c : ascii) : ascii :=
  let n := N_of_ascii c in
  if (((65 <=? n) && (n <=? 90))
      || ((192 <=? n) && (n <=? 222) && negb (n =? 215)))%N
  then ascii_of_N (n + 32)
  else c.

Fixpoint toLowerCase (s : string) : string :=
  match s with
  | EmptyString => EmptyString
  | String c s' => String (lowerUnit c) (toLowerCase s')
  end.

Fixpoint trimStart (s : string) : string :=
  match s with
  | EmptyString => EmptyString
  | String c s' => if isWhiteSpace c then trimStart s' else s
  end.

Fixpoint trimEnd (s : string) : string :=
  match s with
  | EmptyString => EmptyString
  | String c s' =>
      let r := trimEnd s' in
      if isWhiteSpace c && String.eqb r EmptyString
      then EmptyString
      else String c r
  end.

Definition trim (s : string) : string := trimEnd (trimStart s).

Fixpoint startsWith (s search : string) : bool :=
  match search, s with
  | EmptyString, _ => true
  | String _ _, EmptyString => false
  | String a search', String b s' => Ascii.eqb a b && startsWith s' search'
  end.

(** [String.prototype.includes] with the default position 0. *)
Fixpoint includes (s search : string) : bool :=
  startsWith s search
  || match s with
     | EmptyString => false
     | String _ s' => includes s' search
     end.

(** Every code unit of [s] is white space. *)
Fixpoint allWhiteSpace (s : string) : bool :=
  match s with
  | EmptyString => true
  | String c s' => isWhiteSpace c && allWhiteSpace s'
  end.

End JsString.

(** [Array.prototype.includes] on an array of strings. *)
Definition arrayIncludes (l : list string) (x : string) : bool :=
  existsb (String.eqb x) l.

(** [Array.prototype.slice(start, end)]: a negative index counts from the
    end of the array, and both ends are clamped to the array. *)
Definition relativeIndex (len i : Z) : Z :=
  if i <? 0 then Z.max (len + i) 0 else Z.min i len.

Definition arrayLength {A : Type} (l : list A) : Z := Z.of_nat (List.length l).

Definition slice {A : Type} (l : list A) (startIndex endIndex : Z) : list A :=
  let len := arrayLength l in
  let k := relativeIndex len startIndex in
  let final := relativeIndex len endIndex in
  firstn (Z.to_nat (final - k)) (skipn (Z.to_nat k) l).

(** ** Data model *)

Record Book : Type := mkBook {
  book_id : string;
  book_title : string;
  book_image : string;
  book_author : string;
  book_genres : list string;
  book_published : string;
  book_description : string
}.

(** The object built from the search form: [Object.fromEntries(formData)]. *)
Record Filters : Type := mkFilters {
  filters_title : string;
  filters_author : string;
  filters_genre : string
}.

(** The "show more" button: the count in its label and its disabled flag. *)
Record Button : Type := mkButton {
  remaining : Z;
  disabled : bool
}.

(** The fields of the detail overlay ([html.list.*]). *)
Record Detail : Type := mkDetail {
  blur_src : string;
  image_src : string;
  detail_title : string;
  detail_subtitle : string;
  detail_description : string;
  detail_open : bool
}.

(** One element of the click event's path: [node?.dataset?.preview], which
    is [undefined] ([None]) for a node without a data set or without the
    attribute. *)
Definition PathNode : Type := option string.

(** A template literal prints a missing property as [undefined]. *)
Definition templateValue (v : option string) : string :=
  match v with
  | Some x => x
  | None => "undefined"%string
  end.

(** ** The specification's vocabulary *)

(** [r] is [l] with some elements left out, the others in their order. *)
Inductive Subsequence {A : Type} : list A -> list A -> Prop :=
| sub_nil : Subsequence [] []
| sub_keep x r l : Subsequence r l -> Subsequence (x :: r) (x :: l)
| sub_skip x r l : Subsequence r l -> Subsequence r (x :: l).

(** [r] is exactly the members of [l] that satisfy [P], in their order. *)
Inductive Selects {A : Type} (P : A -> Prop) : list A -> list A -> Prop :=
| sel_nil : Selects P [] []
| sel_keep x l r : P x -> Selects P l r -> Selects P (x :: l) (x :: r)
| sel_drop x l r : ~ P x -> Selects P l r -> Selects P (x :: l) r.

(** Case-insensitive substring containment: some substring of [text] is
    [sub] up to the case of its letters. *)
Definition ContainsIgnoringCase (text sub : string) : Prop :=
  exists pre u post,
    text = (pre ++ u ++ post)%string
    /\ JsString.toLowerCase u = JsString.toLowerCase sub.

Definition TitleOk (titleText : string) (b : Book) : Prop :=
  ContainsIgnoringCase (book_title b) titleText.

Definition AuthorOk (selector : string) (b : Book) : Prop :=
  selector = "any"%string \/ book_author b = selector.

Definition GenreOk (selector : string) (b : Book) : Prop :=
  selector = "any"%string \/ In selector (book_genres b).

(** The three predicates of the filter contract, on the title text as it
    was typed. *)
Definition SatisfiesAll (f : Filters) (b : Book) : Prop :=
  TitleOk (filters_title f) b
  /\ AuthorOk (filters_author f) b
  /\ GenreOk (filters_genre f) b.

(** The same, on the title text without its surrounding white space. *)
Definition SatisfiesAllTrimmed (f : Filters) (b : Book) : Prop :=
  TitleOk (JsString.trim (filters_title f)) b
  /\ AuthorOk (filters_author f) b
  /\ GenreOk (filters_genre f) b.

(** The first and the last code unit of a text, when it has one. *)
Definition firstUnit (s : string) : option ascii :=
  match s with
  | EmptyString => None
  | String c _ => Some c
  end.

Fixpoint lastUnit (s : string) : option ascii :=
  match s with
  | EmptyString => None
  | String c r =>
      match r with
      | EmptyString => Some c
      | String _ _ => lastUnit r
      end
  end.

(** A text with no white space at either end; the empty text is one. *)
Definition noOuterWhiteSpace (s : string) : bool :=
  match firstUnit s, lastUnit s with
  | Some a, Some z => negb (JsString.isWhiteSpace a) && negb (JsString.isWhiteSpace z)
  | _, _ => true
  end.

(** ** Sample data *)

Definition decimal (n : nat) : string :=
  DecimalString.NilEmpty.string_of_uint (Nat.to_uint n).

(** A book whose id is the decimal numeral of [n]. *)
Definition sampleBook (n : nat) : Book :=
  mkBook (decimal n) ("Book " ++ decimal n)%string "cover.png" "author-1"
         ["fiction"%string] "2000-01-01" EmptyString.

(** Books numbered [0 .. n-1]. *)
Definition sampleBooks (n : nat) : list Book := map sampleBook (seq 0 n).

Definition sampleAuthors (a : string) : option string :=
  if String.eqb a "author-1" then Some "Ann Author"%string else None.

(** A preview that only shows the book's id. *)
Definition samplePreview (b : Book) : string := book_id b.

Definition sampleYear (published : string) : string := substring 0 4 published.

(** The names every object inherits from [Object.prototype]. *)
Definition objectPrototypeNames : list string :=
  ["constructor"; "__defineGetter__"; "__defineSetter__"; "hasOwnProperty";
   "__lookupGetter__"; "__lookupSetter__"; "isPrototypeOf";
   "propertyIsEnumerable"; "toString"; "valueOf"; "__proto__";
   "toLocaleString"]%string.

(** The lookups of the object [{day: {...}, night: {...}}]: its two own
    themes, the inherited members, which have neither colour, and
    [undefined] for every other name. *)
Definition sampleCss (theme : string)
  : option (option string * option string) :=
  if String.eqb theme "day"
  then Some (Some "10, 10, 20", Some "255, 255, 255")%string
  else if String.eqb theme "night"
  then Some (Some "255, 255, 255", Some "10, 10, 20")%string
  else if existsb (String.eqb theme) objectPrototypeNames
  then Some (None, None)
  else None.

(** The settings overlay, and the calls made so far to
    [document.documentElement.style.setProperty], oldest first: the
    property name and the value, as the string it is converted to. *)
Record Settings : Type := mkSettings {
  settings_open : bool;
  setProperty_calls : list (string * string)
}.

(** How a handler ends: normally, or by an uncaught [TypeError]; either
    way with the document as the handler left it. *)
Inductive Completion (A : Type) : Type :=
| Normal (a : A)
| TypeError (a : A).

Arguments Normal {A} _.
Arguments TypeError {A} _.

Definition stateOf {A : Type} (c : Completion A) : A :=
  match c with
  | Normal a => a
  | TypeError a => a
  end.

(** ** The script *)

Section Catalog.

(** What [scripts.js] imports: the page size, the book list and the
    author table of [data.js], the preview builder of [view.js], and the
    engine's [new Date(published).getFullYear()] printed in a template. *)
Variable BOOKS_PER_PAGE : Z.
Variable books : list Book.
Variable authors : string -> option string.
Variable Preview : Type.
Variable createPreview : Book -> Preview.
Variable getFullYear : string -> string.

(** The module variables [matches] and [page], and the parts of the
    document the handlers write. *)
Record State : Type := mkState {
  matches : list Book;
  page : Z;
  items : list Preview;
  button : Button;
  message_show : bool;
  detail : Detail;
  search_open : bool
}.

Definition set_matches (v : list Book) (s : State) : State :=
  mkState v (page s) (items s) (button s) (message_show s) (detail s) (search_open s).
Definition set_page (v : Z) (s : State) : State :=
  mkState (matches s) v (items s) (button s) (message_show s) (detail s) (search_open s).
Definition set_items (v : list Preview) (s : State) : State :=
  mkState (matches s) (page s) v (button s) (message_show s) (detail s) (search_open s).
Definition set_button (v : Button) (s : State) : State :=
  mkState (matches s) (page s) (items s) v (message_show s) (detail s) (search_open s).
Definition set_message_show (v : bool) (s : State) : State :=
  mkState (matches s) (page s) (items s) (button s) v (detail s) (search_open s).
Definition set_detail (v : Detail) (s : State) : State :=
  mkState (matches s) (page s) (items s) (button s) (message_show s) v (search_open s).
Definition set_search_open (v : bool) (s : State) : State :=
  mkState (matches s) (page s) (items s) (button s) (message_show s) (detail s) v.

(** [html.list.items.appendChild(fragment)] *)
Definition appendChild (fragment : list Preview) (s : State) : State :=
  set_items (items s ++ fragment) s.

(** [const range = [0, BOOKS_PER_PAGE]] *)
Definition range : Z * Z := (0, BOOKS_PER_PAGE).

(** The label is written twice: [innerText] first, then [innerHTML],
    which replaces it. *)
Definition updateRemainingButton (s : State) : State :=
  let remainingBooksCount := arrayLength (matches s) - page s * BOOKS_PER_PAGE in
  let remainingBooksDisplay :=
    if remainingBooksCount >? 0 then remainingBooksCount else 0 in
  let s := set_button
             (mkButton (arrayLength (matches s) - BOOKS_PER_PAGE) (disabled (button s))) s in
  let s := set_button
             (mkButton (remaining (button s)) (negb (remainingBooksCount >? 0))) s in
  set_button (mkButton remainingBooksDisplay (disabled (button s))) s.

(** The two indices handed to [matches.slice] by [createPreviewsFragment],
    after its [if (startIndex + 36 > matches.length)]. *)
Definition sliceArgs (matches0 : list Book) (startIndex endIndex : Z) : Z * Z :=
  if startIndex + 36 >? arrayLength matches0
  then (startIndex - 36, arrayLength matches0)
  else (startIndex, endIndex).

(** The [for ... of] loop over [extractedBooks]. *)
Definition appendPreviews (extractedBooks : list Book) : list Preview :=
  fold_left (fun fragment book => fragment ++ [createPreview book])
            extractedBooks [].

(** Returns the fragment; [updateRemainingButton] reads the module
    variables, not the parameter [matches0]. *)
Definition createPreviewsFragment
    (matches0 : list Book) (startIndex endIndex : Z) (s : State)
  : list Preview * State :=
  let '(startIndex, endIndex) := sliceArgs matches0 startIndex endIndex in
  let extractedBooks := slice matches0 startIndex endIndex in
  let fragment := appendPreviews extractedBooks in
  (fragment, updateRemainingButton s).

(** The module body: [s0] is the document as parsed; its [matches] and
    [page] are set by the two [let]s.  The two [throw]s cannot fire on a
    book list that is an array. *)
Definition load (s0 : State) : State :=
  let s := set_page 1 (set_matches books s0) in
  let '(fragment, s) := createPreviewsFragment (matches s) (fst range) (snd range) s in
  appendChild fragment s.

Definition handleSearchButtonClick (s : State) : State :=
  set_search_open true s.

Definition handleSearchCancelClick (s : State) : State :=
  set_search_open false s.

Definition handleBookPreviewCloseClick (s : State) : State :=
  set_detail (mkDetail (blur_src (detail s)) (image_src (detail s))
                (detail_title (detail s)) (detail_subtitle (detail s))
                (detail_description (detail s)) false) s.

Definition handleListButtonClick (s : State) : State :=
  let s := set_page (page s + 1) s in
  let '(fragment, s) :=
    createPreviewsFragment (matches s)
      (page s * BOOKS_PER_PAGE) ((page s + 1) * BOOKS_PER_PAGE) s in
  appendChild fragment s.

(** The inner loop of [handleListItemClick]: the first book whose id is
    [previewId]. *)
Fixpoint findBook (bs : list Book) (previewId : string) : option Book :=
  match bs with
  | [] => None
  | singleBook :: bs' =>
      if String.eqb (book_id singleBook) previewId
      then Some singleBook
      else findBook bs' previewId
  end.

(** The outer loop: it leaves as soon as [active] is set, and passes over
    a node whose [previewId] is falsy ([undefined] or the empty string). *)
Fixpoint scanPath (pathArray : list PathNode) : option Book :=
  match pathArray with
  | [] => None
  | node :: rest =>
      match node with
      | None => scanPath rest
      | Some previewId =>
          if String.eqb previewId EmptyString then scanPath rest
          else match findBook books previewId with
               | Some singleBook => Some singleBook
               | None => scanPath rest
               end
      end
  end.

(** The end of [handleListItemClick], past [if (!active) return]. *)
Definition showDetail (active : Book) (s : State) : State :=
  set_detail
    (mkDetail (book_image active) (book_image active) (book_title active)
       (templateValue (authors (book_author active)) ++ " ("
        ++ getFullYear (book_published active) ++ ")")%string
       (book_description active) true) s.

Definition handleListItemClick (pathArray : list PathNode) (s : State) : State :=
  match scanPath pathArray with
  | None => s
  | Some active => showDetail active s
  end.

(** One turn of the loop over [books] in [handleFilterFormSubmit]; each
    [continue] leaves [result] as it is. *)
Definition filterStep (filtersTitle filtersAuthor filtersGenre : string)
    (result : list Book) (singleBook : Book) : list Book :=
  let titleMatch :=
    String.eqb filtersTitle EmptyString
    || JsString.includes (JsString.toLowerCase (book_title singleBook)) filtersTitle in
  if negb titleMatch then result else
  let authorMatch :=
    String.eqb filtersAuthor "any" || String.eqb (book_author singleBook) filtersAuthor in
  if negb authorMatch then result else
  let genreMatch :=
    String.eqb filtersGenre "any" || arrayIncludes (book_genres singleBook) filtersGenre in
  if negb genreMatch then result else
  if titleMatch && authorMatch && genreMatch
  then result ++ [singleBook]
  else result.

(** The [result] array when the loop is over. *)
Definition filterResult (filters : Filters) : list Book :=
  let filtersTitle := JsString.toLowerCase (JsString.trim (filters_title filters)) in
  let filtersAuthor := filters_author filters in
  let filtersGenre := filters_genre filters in
  fold_left (filterStep filtersTitle filtersAuthor filtersGenre) books [].

Definition handleFilterFormSubmit (filters : Filters) (s : State) : State :=
  let s := set_page 1 s in
  let result := filterResult filters in
  let s := set_message_show (arrayLength result <? 1) s in
  let s := set_items [] s in
  let s := set_matches result s in
  let '(fragment, s) := createPreviewsFragment (matches s) (fst range) (snd range) s in
  let s := appendChild fragment s in
  set_search_open false s.

(** *** Events *)

Inductive Event : Type :=
| SearchButtonClick
| SearchCancelClick
| BookPreviewCloseClick
| ListButtonClick
| ListItemClick (pathArray : list PathNode)
| FilterFormSubmit (filters : Filters).

Definition dispatch (e : Event) (s : State) : State :=
  match e with
  | SearchButtonClick => handleSearchButtonClick s
  | SearchCancelClick => handleSearchCancelClick s
  | BookPreviewCloseClick => handleBookPreviewCloseClick s
  | ListButtonClick => handleListButtonClick s
  | ListItemClick pathArray => handleListItemClick pathArray s
  | FilterFormSubmit filters => handleFilterFormSubmit filters s
  end.

(** Handlers run to completion, one event after the other. *)
Definition run (events : list Event) (s : State) : State :=
  fold_left (fun st e => dispatch e st) events s.

(** A state the page can be in: the script was loaded on some document
    and some events followed. *)
Definition reachable (s : State) : Prop :=
  exists s0 events, s = run events (load s0).

(** [n] clicks on "show more". *)
Fixpoint clicks (n : nat) (s : State) : State :=
  match n with
  | O => s
  | S n' => clicks n' (handleListButtonClick s)
  end.

(** The three places that render previews. *)
Inductive RenderPass : Type :=
| InitialRender
| FilterSubmission (filters : Filters)
| ShowMore.

Definition renderPass (r : RenderPass) (s : State) : State :=
  match r with
  | InitialRender => load s
  | FilterSubmission filters => handleFilterFormSubmit filters s
  | ShowMore => handleListButtonClick s
  end.

(** The array sliced by a render pass started in [s], and the two
    indices it hands to [slice]. *)
Definition passMatches (r : RenderPass) (s : State) : list Book :=
  match r with
  | InitialRender => books
  | FilterSubmission filters => filterResult filters
  | ShowMore => matches s
  end.

Definition passWindow (r : RenderPass) (s : State) : Z * Z :=
  match r with
  | InitialRender | FilterSubmission _ =>
      sliceArgs (passMatches r s) (fst range) (snd range)
  | ShowMore =>
      sliceArgs (matches s)
        ((page s + 1) * BOOKS_PER_PAGE) ((page s + 1 + 1) * BOOKS_PER_PAGE)
  end.

(** The previews on the page when the pass starts appending. *)
Definition passBase (r : RenderPass) (s : State) : list Preview :=
  match r with
  | InitialRender | ShowMore => items s
  | FilterSubmission _ => []
  end.


(** The document used in the examples: nothing rendered, all closed. *)
Definition sampleDocument : State :=
  mkState [] 0 [] (mkButton 0 false) false
          (mkDetail EmptyString EmptyString EmptyString EmptyString EmptyString false) false.

(** The test of the filter loop for one book, all three guards passed. *)
Definition passesGuards (filters : Filters) (singleBook : Book) : bool :=
  let filtersTitle := JsString.toLowerCase (JsString.trim (filters_title filters)) in
  (String.eqb filtersTitle EmptyString
   || JsString.includes (JsString.toLowerCase (book_title singleBook)) filtersTitle)
  && (String.eqb (filters_author filters) "any"
      || String.eqb (book_author singleBook) (filters_author filters))
  && (String.eqb (filters_genre filters) "any"
      || arrayIncludes (book_genres singleBook) (filters_genre filters)).

(** [remainingBooksCount] as [updateRemainingButton] computes it. *)
Definition booksLeft (s : State) : Z :=
  arrayLength (matches s) - page s * BOOKS_PER_PAGE.

(** What holds of the module variables and the button in every state
    the page can be in. *)
Definition consistent (s : State) : Prop :=
  1 <= page s
  /\ button s = mkButton (Z.max 0 (booksLeft s)) (negb (booksLeft s >? 0))
  /\ Subsequence (matches s) books.

(** A preview identifier the click handler can resolve: a truthy string
    that is the id of some book. *)
Definition resolvable (previewId : string) : Prop :=
  previewId <> EmptyString /\ exists b, In b books /\ book_id b = previewId.

(** [b] is the first book of the Book Store whose id is [previewId]. *)
Definition firstWithId (previewId : string) (b : Book) : Prop :=
  exists before after,
    books = before ++ b :: after
    /\ book_id b = previewId
    /\ forall b', In b' before -> book_id b' <> previewId.

(** The same filter form with another title text. *)
Definition withTitle (titleText : string) (f : Filters) : Filters :=
  mkFilters titleText (filters_author f) (filters_genre f).

(** *** The settings overlay and the theme *)

(** The theme table of [data.js], as the engine resolves [css[theme]],
    own and inherited members alike: [None] when the lookup is
    [undefined]; otherwise the [dark] and the [light] member of what was
    found, each [None] when it has none. *)
Variable css : string -> option (option string * option string).

Definition handleSettingsButtonClick (st : Settings) : Settings :=
  mkSettings true (setProperty_calls st).

Definition handleSettingsCancelClick (st : Settings) : Settings :=
  mkSettings false (setProperty_calls st).

(** [theme] is [Object.fromEntries(formData).theme], [undefined] when the
    form has no such field; as a property key it is then the name
    [undefined].  The arguments of the first [setProperty] are evaluated
    before it is called: reading [.dark] of [undefined] throws with
    nothing written.  An [undefined] colour is handed over as the string
    [undefined]. *)
Definition updateDarkLightMode (theme : option string) (st : Settings)
  : Completion Settings :=
  match css (templateValue theme) with
  | None => TypeError st
  | Some entry =>
      let st := mkSettings (settings_open st)
                  (setProperty_calls st
                   ++ [("--color-dark"%string, templateValue (fst entry))]) in
      let st := mkSettings (settings_open st)
                  (setProperty_calls st
                   ++ [("--color-light"%string, templateValue (snd entry))]) in
      Normal (mkSettings false (setProperty_calls st))
  end.

Inductive SettingsEvent : Type :=
| SettingsButtonClick
| SettingsCancelClick
| SettingsFormSubmit (theme : option string).

(** The two calls one theme lookup gives rise to. *)
Definition themeWrites (entry : option string * option string)
  : list (string * string) :=
  [("--color-dark"%string, templateValue (fst entry));
   ("--color-light"%string, templateValue (snd entry))].

(** The lookups of the themes submitted in [events] that are defined, in
    the order of submission. *)
Fixpoint submittedEntries (events : list SettingsEvent)
  : list (option string * option string) :=
  match events with
  | [] => []
  | SettingsFormSubmit theme :: rest =>
      match css (templateValue theme) with
      | Some entry => entry :: submittedEntries rest
      | None => submittedEntries rest
      end
  | _ :: rest => submittedEntries rest
  end.

(** An uncaught error ends its handler only; the next event is handled on
    the document as it stands. *)
Definition dispatchSettings (e : SettingsEvent) (st : Settings) : Settings :=
  match e with
  | SettingsButtonClick => handleSettingsButtonClick st
  | SettingsCancelClick => handleSettingsCancelClick st
  | SettingsFormSubmit theme => stateOf (updateDarkLightMode theme st)
  end.

Definition runSettings (events : list SettingsEvent) (st : Settings) : Settings :=
  fold_left (fun acc e => dispatchSettings e acc) events st.

(** The events that render previews. *)
Definition rendersPreviews (e : Event) : bool :=
  match e with
  | ListButtonClick | FilterFormSubmit _ => true
  | _ => false
  end.

(** ** Facts about strings *)

Lemma startsWith_spec (s search : string) :
  JsString.startsWith s search = true <-> exists post, s = (search ++ post)%string.
Proof.
  revert s. induction search as [|a search IH]; intros s.
  - split; [intros _; now exists s | intros _; destruct s; reflexivity].
  - destruct s as [|b s]; simpl.
    + split; [discriminate | intros [post H]; discriminate].
    + rewrite andb_true_iff, Ascii.eqb_eq, IH. split.
      * intros [-> [post ->]]. now exists post.
      * intros [post H]. injection H as -> ->. split; [reflexivity | now exists post].
Qed.

Lemma includes_spec (s search : string) :
  JsString.includes s search = true
  <-> exists pre post, s = (pre ++ search ++ post)%string.
Proof.
  induction s as [|c s IH].
  - cbn [JsString.includes]. rewrite orb_false_r, startsWith_spec. split.
    + intros [post H]. now exists EmptyString, post.
    + intros [pre [post H]]. destruct pre; [now exists post | discriminate].
  - cbn [JsString.includes]. rewrite orb_true_iff, startsWith_spec, IH. split.
    + intros [[post H] | [pre [post H]]].
      * now exists EmptyString, post.
      * exists (String c pre), post. simpl. now rewrite H.
    + intros [pre [post H]]. destruct pre as [|d pre].
      * left. now exists post.
      * right. simpl in H. injection H as _ H. now exists pre, post.
Qed.

Lemma toLowerCase_app (a b : string) :
  JsString.toLowerCase (a ++ b) =
  (JsString.toLowerCase a ++ JsString.toLowerCase b)%string.
Proof. induction a as [|c a IH]; simpl; [reflexivity | now rewrite IH]. Qed.

Lemma toLowerCase_split (s x y : string) :
  JsString.toLowerCase s = (x ++ y)%string ->
  exists a b, s = (a ++ b)%string
              /\ JsString.toLowerCase a = x /\ JsString.toLowerCase b = y.
Proof.
  revert s. induction x as [|c x IH]; intros s H.
  - exists EmptyString, s. now simpl.
  - destruct s as [|d s]; [discriminate|].
    simpl in H. injection H as Hc H.
    destruct (IH _ H) as [a [b [-> [Ha Hb]]]].
    exists (String d a), b. simpl. now rewrite Hc, Ha, Hb.
Qed.

(** The script's title test decides the contract's containment. *)
Lemma includes_lower_iff (text sub : string) :
  JsString.includes (JsString.toLowerCase text) (JsString.toLowerCase sub) = true
  <-> ContainsIgnoringCase text sub.
Proof.
  rewrite includes_spec. unfold ContainsIgnoringCase. split.
  - intros [pre [post H]].
    destruct (toLowerCase_split _ _ _ H) as [a [rest [-> [_ Hrest]]]].
    destruct (toLowerCase_split _ _ _ Hrest) as [u [b [-> [Hu _]]]].
    now exists a, u, b.
  - intros [pre [u [post [-> Hu]]]].
    exists (JsString.toLowerCase pre), (JsString.toLowerCase post).
    now rewrite !toLowerCase_app, Hu.
Qed.

Lemma includes_empty (s : string) : JsString.includes s EmptyString = true.
Proof. destruct s; reflexivity. Qed.

Lemma arrayIncludes_In (l : list string) (x : string) :
  arrayIncludes l x = true <-> In x l.
Proof.
  unfold arrayIncludes. rewrite existsb_exists. split.
  - intros [y [Hy Heq]]. apply String.eqb_eq in Heq. now subst.
  - intros H. exists x. split; [assumption | apply String.eqb_refl].
Qed.

Lemma passesGuards_iff (f : Filters) (b : Book) :
  passesGuards f b = true <-> SatisfiesAllTrimmed f b.
Proof.
  unfold passesGuards, SatisfiesAllTrimmed, TitleOk, AuthorOk, GenreOk.
  rewrite !andb_true_iff, !orb_true_iff, !String.eqb_eq, arrayIncludes_In,
    includes_lower_iff.
  split.
  - intros [[[Ht | Ht] Ha] Hg]; repeat split; try assumption.
    apply includes_lower_iff. rewrite Ht. apply includes_empty.
  - intros [Ht [Ha Hg]]. repeat split; try assumption. now right.
Qed.

(** ** Facts about the filter loop *)

Lemma filterStep_guards (f : Filters) (result : list Book) (b : Book) :
  filterStep (JsString.toLowerCase (JsString.trim (filters_title f)))
             (filters_author f) (filters_genre f) result b
  = if passesGuards f b then result ++ [b] else result.
Proof.
  unfold filterStep, passesGuards.
  destruct (_ || JsString.includes _ _); simpl; [|reflexivity].
  destruct (_ || (book_author b =? _)%string); simpl; [|reflexivity].
  destruct (_ || arrayIncludes _ _); reflexivity.
Qed.

Lemma filterLoop_filter (f : Filters) (bs result : list Book) :
  fold_left (filterStep (JsString.toLowerCase (JsString.trim (filters_title f)))
                        (filters_author f) (filters_genre f)) bs result
  = result ++ filter (passesGuards f) bs.
Proof.
  revert result. induction bs as [|b bs IH]; intros result; simpl.
  - now rewrite app_nil_r.
  - rewrite IH, filterStep_guards.
    destruct (passesGuards f b); [now rewrite <- app_assoc | reflexivity].
Qed.

Lemma filterResult_filter (f : Filters) :
  filterResult f = filter (passesGuards f) books.
Proof. unfold filterResult. now rewrite filterLoop_filter. Qed.

Lemma filter_Selects {A : Type} (p : A -> bool) (P : A -> Prop) (l : list A) :
  (forall x, p x = true <-> P x) -> Selects P l (filter p l).
Proof.
  intros Hp. induction l as [|x l IH]; simpl; [constructor|].
  destruct (p x) eqn:E.
  - apply sel_keep; [now apply Hp | assumption].
  - apply sel_drop; [|assumption]. intros HP. apply Hp in HP. congruence.
Qed.

Lemma Selects_Subsequence {A : Type} (P : A -> Prop) (l r : list A) :
  Selects P l r -> Subsequence r l.
Proof. induction 1; now constructor. Qed.

Lemma Selects_functional {A : Type} (P : A -> Prop) (l r r' : list A) :
  Selects P l r -> Selects P l r' -> r = r'.
Proof.
  intros H. revert r'. induction H; intros r' H'; inversion H'; subst;
    try reflexivity; try contradiction.
  - f_equal. now apply IHSelects.
  - now apply IHSelects.
Qed.

(** ** Facts about [trim] *)

Lemma trimStart_allWhiteSpace (s : string) :
  JsString.allWhiteSpace s = true -> JsString.trimStart s = EmptyString.
Proof.
  induction s as [|c s IH]; simpl; [reflexivity|].
  destruct (JsString.isWhiteSpace c); simpl; [exact IH | discriminate].
Qed.

Lemma trim_allWhiteSpace (s : string) :
  JsString.allWhiteSpace s = true -> JsString.trim s = EmptyString.
Proof. intros H. unfold JsString.trim. now rewrite trimStart_allWhiteSpace. Qed.

Lemma trimStart_head (s : string) :
  JsString.trimStart s = EmptyString
  \/ exists c r, JsString.trimStart s = String c r /\ JsString.isWhiteSpace c = false.
Proof.
  induction s as [|c s IH]; simpl; [now left|].
  destruct (JsString.isWhiteSpace c) eqn:E; [exact IH|].
  right. now exists c, s.
Qed.

Lemma trimEnd_idempotent (s : string) :
  JsString.trimEnd (JsString.trimEnd s) = JsString.trimEnd s.
Proof.
  induction s as [|c s IH]; simpl; [reflexivity|].
  destruct (JsString.isWhiteSpace c && (JsString.trimEnd s =? EmptyString)%string) eqn:E;
    [reflexivity|].
  simpl. now rewrite IH, E.
Qed.

Lemma trimEnd_keeps_head (c : ascii) (r : string) :
  JsString.isWhiteSpace c = false ->
  JsString.trimEnd (String c r) = String c (JsString.trimEnd r).
Proof. intros H. simpl. now rewrite H. Qed.

Lemma trim_idempotent (s : string) :
  JsString.trim (JsString.trim s) = JsString.trim s.
Proof.
  unfold JsString.trim.
  destruct (trimStart_head s) as [-> | [c [r [-> Hc]]]]; [reflexivity|].
  rewrite (trimEnd_keeps_head c r Hc). simpl JsString.trimStart at 1.
  rewrite Hc, <- (trimEnd_keeps_head c r Hc). apply trimEnd_idempotent.
Qed.

(** ** Facts about rendering *)

Lemma appendPreviews_from (bs : list Book) (fragment : list Preview) :
  fold_left (fun frag book => frag ++ [createPreview book]) bs fragment
  = fragment ++ map createPreview bs.
Proof.
  revert fragment. induction bs as [|b bs IH]; intros fragment; simpl.
  - now rewrite app_nil_r.
  - now rewrite IH, <- app_assoc.
Qed.

Lemma appendPreviews_map (bs : list Book) :
  appendPreviews bs = map createPreview bs.
Proof. unfold appendPreviews. now rewrite appendPreviews_from. Qed.

Lemma createPreviewsFragment_eq (m : list Book) (i j : Z) (s : State) :
  createPreviewsFragment m i j s
  = (map createPreview (slice m (fst (sliceArgs m i j)) (snd (sliceArgs m i j))),
     updateRemainingButton s).
Proof.
  unfold createPreviewsFragment. destruct (sliceArgs m i j) as [i' j'].
  now rewrite appendPreviews_map.
Qed.

Lemma handleFilterFormSubmit_matches (f : Filters) (s : State) :
  matches (handleFilterFormSubmit f s) = filterResult f.
Proof. unfold handleFilterFormSubmit. now rewrite createPreviewsFragment_eq. Qed.

Lemma handleFilterFormSubmit_depends_on_result (f f' : Filters) (s : State) :
  filterResult f = filterResult f' ->
  handleFilterFormSubmit f s = handleFilterFormSubmit f' s.
Proof. intros H. unfold handleFilterFormSubmit. now rewrite H. Qed.

(** ** Facts about [slice] *)

Lemma arrayLength_nonneg {A : Type} (l : list A) : 0 <= arrayLength l.
Proof. unfold arrayLength. lia. Qed.

Lemma relativeIndex_bounds (len i : Z) :
  0 <= len -> 0 <= relativeIndex len i <= len.
Proof. unfold relativeIndex. destruct (i <? 0) eqn:E; lia. Qed.

Lemma slice_prefix {A : Type} (l : list A) (j : Z) :
  0 <= j -> slice l 0 j = firstn (Z.to_nat j) l.
Proof.
  intros Hj. unfold slice, relativeIndex, arrayLength.
  replace (0 <? 0) with false by reflexivity.
  replace (j <? 0) with false by (symmetry; apply Z.ltb_ge; exact Hj).
  rewrite (Z.min_l 0) by lia. simpl skipn. rewrite Z.sub_0_r.
  destruct (Z.le_ge_cases j (Z.of_nat (List.length l))) as [H | H].
  - now rewrite Z.min_l by exact H.
  - rewrite Z.min_r by exact H. rewrite Nat2Z.id.
    rewrite firstn_all. symmetry. apply firstn_all2. lia.
Qed.

Lemma slice_suffix {A : Type} (l : list A) (i : Z) :
  0 <= i -> slice l i (arrayLength l) = skipn (Z.to_nat i) l.
Proof.
  intros Hi. unfold slice, relativeIndex.
  pose proof (arrayLength_nonneg l) as Hl.
  replace (i <? 0) with false by (symmetry; apply Z.ltb_ge; exact Hi).
  replace (arrayLength l <? 0) with false by (symmetry; apply Z.ltb_ge; exact Hl).
  rewrite (Z.min_l (arrayLength l)) by lia.
  destruct (Z.le_ge_cases i (arrayLength l)) as [H | H].
  - rewrite Z.min_l by exact H. apply firstn_all2.
    rewrite length_skipn. unfold arrayLength in *. lia.
  - rewrite Z.min_r by exact H. rewrite Z.sub_diag. simpl firstn.
    symmetry. apply skipn_all2. unfold arrayLength in *. lia.
Qed.

Lemma slice_last_36_whole {A : Type} (l : list A) :
  arrayLength l < 36 -> slice l (0 - 36) (arrayLength l) = l.
Proof.
  intros H. unfold slice, relativeIndex.
  pose proof (arrayLength_nonneg l) as Hl.
  replace (0 - 36 <? 0) with true by reflexivity.
  replace (arrayLength l <? 0) with false by (symmetry; apply Z.ltb_ge; exact Hl).
  rewrite Z.max_r by lia. rewrite Z.min_l by lia. simpl skipn.
  rewrite Z.sub_0_r. unfold arrayLength. rewrite Nat2Z.id. apply firstn_all.
Qed.

Lemma slice_past_end {A : Type} (l : list A) (i : Z) :
  arrayLength l <= i -> slice l i (arrayLength l) = [].
Proof.
  intros H. pose proof (arrayLength_nonneg l) as Hl.
  rewrite slice_suffix by lia. apply skipn_all2. unfold arrayLength in *. lia.
Qed.

(** ** Facts about the handlers *)

Lemma updateRemainingButton_eq (s : State) :
  updateRemainingButton s
  = set_button (mkButton (Z.max 0 (booksLeft s)) (negb (booksLeft s >? 0))) s.
Proof.
  unfold updateRemainingButton, booksLeft, set_button. simpl. f_equal. f_equal.
  destruct (_ >? 0) eqn:E; [apply Z.gtb_lt in E | rewrite Z.gtb_ltb in E; apply Z.ltb_ge in E];
    lia.
Qed.

Lemma load_eq (s0 : State) :
  load s0
  = mkState books 1
      (items s0 ++ map createPreview
         (slice books (fst (sliceArgs books 0 BOOKS_PER_PAGE))
                      (snd (sliceArgs books 0 BOOKS_PER_PAGE))))
      (mkButton (Z.max 0 (arrayLength books - 1 * BOOKS_PER_PAGE))
                (negb (arrayLength books - 1 * BOOKS_PER_PAGE >? 0)))
      (message_show s0) (detail s0) (search_open s0).
Proof.
  unfold load. rewrite createPreviewsFragment_eq, updateRemainingButton_eq.
  reflexivity.
Qed.

Lemma handleListButtonClick_eq (s : State) :
  handleListButtonClick s
  = mkState (matches s) (page s + 1)
      (items s ++ map createPreview
         (slice (matches s)
            (fst (sliceArgs (matches s) ((page s + 1) * BOOKS_PER_PAGE)
                            ((page s + 1 + 1) * BOOKS_PER_PAGE)))
            (snd (sliceArgs (matches s) ((page s + 1) * BOOKS_PER_PAGE)
                            ((page s + 1 + 1) * BOOKS_PER_PAGE)))))
      (mkButton (Z.max 0 (arrayLength (matches s) - (page s + 1) * BOOKS_PER_PAGE))
                (negb (arrayLength (matches s) - (page s + 1) * BOOKS_PER_PAGE >? 0)))
      (message_show s) (detail s) (search_open s).
Proof.
  unfold handleListButtonClick. rewrite createPreviewsFragment_eq, updateRemainingButton_eq.
  reflexivity.
Qed.

Lemma handleFilterFormSubmit_eq (f : Filters) (s : State) :
  handleFilterFormSubmit f s
  = mkState (filterResult f) 1
      (map createPreview
         (slice (filterResult f)
            (fst (sliceArgs (filterResult f) 0 BOOKS_PER_PAGE))
            (snd (sliceArgs (filterResult f) 0 BOOKS_PER_PAGE))))
      (mkButton (Z.max 0 (arrayLength (filterResult f) - 1 * BOOKS_PER_PAGE))
                (negb (arrayLength (filterResult f) - 1 * BOOKS_PER_PAGE >? 0)))
      (arrayLength (filterResult f) <? 1) (detail s) false.
Proof.
  unfold handleFilterFormSubmit. rewrite createPreviewsFragment_eq, updateRemainingButton_eq.
  reflexivity.
Qed.

(** ** Invariant of the reachable states *)

Lemma Subsequence_refl {A : Type} (l : list A) : Subsequence l l.
Proof. induction l; now constructor. Qed.

Lemma filterResult_Subsequence (f : Filters) : Subsequence (filterResult f) books.
Proof.
  rewrite filterResult_filter.
  apply (Selects_Subsequence (fun b => passesGuards f b = true)).
  apply filter_Selects. intros b. reflexivity.
Qed.

Lemma load_consistent (s0 : State) : consistent (load s0).
Proof.
  rewrite load_eq. unfold consistent, booksLeft. simpl.
  repeat split; [lia | apply Subsequence_refl].
Qed.

Lemma dispatch_consistent (e : Event) (s : State) :
  consistent s -> consistent (dispatch e s).
Proof.
  intros [Hp [Hb Hm]]. destruct e; simpl.
  - repeat split; assumption.
  - repeat split; assumption.
  - repeat split; assumption.
  - rewrite handleListButtonClick_eq. unfold consistent, booksLeft. simpl.
    repeat split; [lia | assumption].
  - unfold handleListItemClick. destruct (scanPath pathArray); repeat split; assumption.
  - rewrite handleFilterFormSubmit_eq. unfold consistent, booksLeft. simpl.
    repeat split; [lia | apply filterResult_Subsequence].
Qed.

Lemma run_consistent (events : list Event) (s : State) :
  consistent s -> consistent (run events s).
Proof.
  revert s. induction events as [|e events IH]; intros s H; simpl; [exact H|].
  apply IH. now apply dispatch_consistent.
Qed.

Lemma reachable_consistent (s : State) : reachable s -> consistent s.
Proof.
  intros [s0 [events ->]]. apply run_consistent, load_consistent.
Qed.

(** ** The filter *)

(** C1 (as amended): a filter submission computes exactly the members of
    the book list that satisfy the three predicates together, in the
    book list's order, the title predicate being case-insensitive
    containment of the title text with its surrounding white space
    removed; the result is a subsequence of the book list. *)
Theorem filter_submit_selects (f : Filters) (s : State) :
  Selects (SatisfiesAllTrimmed f) books (matches (handleFilterFormSubmit f s))
  /\ Subsequence (matches (handleFilterFormSubmit f s)) books.
Proof.
  rewrite handleFilterFormSubmit_matches. split.
  - rewrite filterResult_filter. apply filter_Selects, passesGuards_iff.
  - apply filterResult_Subsequence.
Qed.

Lemma filterResult_trim (f : Filters) :
  filterResult f = filterResult (withTitle (JsString.trim (filters_title f)) f).
Proof. unfold filterResult, withTitle. simpl. now rewrite trim_idempotent. Qed.

Lemma filterResult_blank (f : Filters) :
  JsString.allWhiteSpace (filters_title f) = true ->
  filterResult f = filterResult (withTitle EmptyString f).
Proof.
  intros H. unfold filterResult, withTitle. simpl.
  now rewrite (trim_allWhiteSpace _ H).
Qed.

Lemma trimStart_app_blank (pre s : string) :
  JsString.allWhiteSpace pre = true ->
  JsString.trimStart (pre ++ s) = JsString.trimStart s.
Proof.
  induction pre as [|c pre IH]; simpl; [reflexivity|].
  destruct (JsString.isWhiteSpace c); simpl; [exact IH | discriminate].
Qed.

Lemma trimEnd_allWhiteSpace (s : string) :
  JsString.allWhiteSpace s = true -> JsString.trimEnd s = EmptyString.
Proof.
  induction s as [|c s IH]; simpl; [reflexivity|].
  destruct (JsString.isWhiteSpace c); simpl; [|discriminate].
  intros H. now rewrite (IH H).
Qed.

Lemma trimEnd_app_blank (s post : string) :
  JsString.allWhiteSpace post = true ->
  JsString.trimEnd (s ++ post) = JsString.trimEnd s.
Proof.
  intros H. induction s as [|c s IH]; simpl.
  - now apply trimEnd_allWhiteSpace.
  - now rewrite IH.
Qed.

Lemma trimEnd_fixed (s : string) :
  (forall z, lastUnit s = Some z -> JsString.isWhiteSpace z = false) ->
  JsString.trimEnd s = s.
Proof.
  induction s as [|c s IH]; intros H; simpl; [reflexivity|].
  destruct s as [|d s].
  - simpl. rewrite (H c eq_refl). reflexivity.
  - rewrite IH by (intros z Hz; apply H; exact Hz).
    now rewrite andb_false_r.
Qed.

Lemma lastUnit_trimEnd (s : string) (z : ascii) :
  lastUnit (JsString.trimEnd s) = Some z -> JsString.isWhiteSpace z = false.
Proof.
  induction s as [|c s IH]; simpl; [discriminate|].
  destruct (JsString.isWhiteSpace c) eqn:Ec; simpl.
  - destruct (JsString.trimEnd s) as [|d r] eqn:E; simpl; [discriminate|].
    exact IH.
  - destruct (JsString.trimEnd s) as [|d r] eqn:E; simpl.
    + intros H. injection H as <-. exact Ec.
    + exact IH.
Qed.

Lemma trimStart_split (s : string) :
  exists pre, JsString.allWhiteSpace pre = true
              /\ s = (pre ++ JsString.trimStart s)%string.
Proof.
  induction s as [|c s [pre [Hpre Hs]]]; simpl.
  - now exists EmptyString.
  - destruct (JsString.isWhiteSpace c) eqn:E.
    + exists (String c pre). simpl. rewrite E, Hpre. split; [reflexivity|].
      now rewrite <- Hs.
    + now exists EmptyString.
Qed.

Lemma trimEnd_split (s : string) :
  exists post, JsString.allWhiteSpace post = true
               /\ s = (JsString.trimEnd s ++ post)%string.
Proof.
  induction s as [|c s [post [Hpost Hs]]]; simpl.
  - now exists EmptyString.
  - destruct (JsString.isWhiteSpace c && (JsString.trimEnd s =? EmptyString)%string)
      eqn:E.
    + apply andb_true_iff in E. destruct E as [Ec Ee].
      apply String.eqb_eq in Ee. rewrite Ee in Hs. simpl in Hs. subst s.
      exists (String c post). simpl. now rewrite Ec, Hpost.
    + exists post. split; [exact Hpost|]. simpl. now rewrite <- Hs.
Qed.

Lemma noOuterWhiteSpace_trim (s : string) :
  noOuterWhiteSpace (JsString.trim s) = true.
Proof.
  unfold JsString.trim, noOuterWhiteSpace.
  destruct (lastUnit (JsString.trimEnd (JsString.trimStart s))) as [z|] eqn:Ez;
    [|now destruct (firstUnit _)].
  rewrite (lastUnit_trimEnd _ _ Ez).
  destruct (trimStart_head s) as [E | [c [r [E Hc]]]]; rewrite E in *.
  - discriminate Ez.
  - rewrite (trimEnd_keeps_head c r Hc). simpl. now rewrite Hc.
Qed.

(** [trim] takes the white space off both ends and nothing else. *)
Lemma trim_core (pre core post : string) :
  JsString.allWhiteSpace pre = true ->
  JsString.allWhiteSpace post = true ->
  noOuterWhiteSpace core = true ->
  JsString.trim (pre ++ core ++ post) = core.
Proof.
  intros Hpre Hpost Hcore. unfold JsString.trim.
  rewrite (trimStart_app_blank _ _ Hpre).
  destruct core as [|a r].
  - simpl. now rewrite (trimStart_allWhiteSpace _ Hpost).
  - unfold noOuterWhiteSpace in Hcore. cbn [firstUnit] in Hcore.
    destruct (lastUnit (String a r)) as [z|] eqn:Ez.
    + apply andb_true_iff in Hcore. destruct Hcore as [Ha Hz].
      apply negb_true_iff in Ha. apply negb_true_iff in Hz.
      cbn [append JsString.trimStart]. rewrite Ha.
      change (String a (r ++ post)) with (String a r ++ post)%string.
      rewrite (trimEnd_app_blank _ _ Hpost). apply trimEnd_fixed.
      intros z' Hz'. rewrite Ez in Hz'. now injection Hz' as <-.
    + exfalso. clear - Ez. revert a Ez. induction r as [|d r IH]; intros a Ez.
      * discriminate Ez.
      * exact (IH d Ez).
Qed.

(** C10: the title text is trimmed before matching.  Every title text is
    a core without white space at its ends, between two runs of white
    space; however it is so split, the submission leaves the page as the
    submission of the core alone does, and its result is exactly the
    books whose title contains the core (case ignored) and that satisfy
    the author and genre predicates.  When the core is empty, that is,
    when the text is white space only, the page is that of the empty
    title text and every title matches. *)
Theorem filter_title_is_trimmed (f : Filters) (s : State) :
  (forall c, JsString.isWhiteSpace c = true
             <-> In (N_of_ascii c) [9; 10; 11; 12; 13; 32; 160]%N)
  /\ (exists pre core post,
     filters_title f = (pre ++ core ++ post)%string
     /\ JsString.allWhiteSpace pre = true
     /\ JsString.allWhiteSpace post = true
     /\ noOuterWhiteSpace core = true)
  /\ (forall pre core post,
        filters_title f = (pre ++ core ++ post)%string ->
        JsString.allWhiteSpace pre = true ->
        JsString.allWhiteSpace post = true ->
        noOuterWhiteSpace core = true ->
        handleFilterFormSubmit f s = handleFilterFormSubmit (withTitle core f) s
        /\ Selects (fun b => TitleOk core b
                             /\ AuthorOk (filters_author f) b
                             /\ GenreOk (filters_genre f) b)
                   books (matches (handleFilterFormSubmit f s))
        /\ (core = EmptyString ->
            handleFilterFormSubmit f s
            = handleFilterFormSubmit (withTitle EmptyString f) s
            /\ Selects (fun b => AuthorOk (filters_author f) b
                                 /\ GenreOk (filters_genre f) b)
                       books (matches (handleFilterFormSubmit f s)))).
Proof.
  split; [|split].
  - intros [b0 b1 b2 b3 b4 b5 b6 b7].
    destruct b0, b1, b2, b3, b4, b5, b6, b7; vm_compute;
      (split; [intros H; try discriminate H; tauto
              | intros H; try reflexivity; intuition discriminate]).
  - destruct (trimStart_split (filters_title f)) as [pre [Hpre Hs]].
    destruct (trimEnd_split (JsString.trimStart (filters_title f)))
      as [post [Hpost He]].
    exists pre, (JsString.trim (filters_title f)), post.
    repeat split; try assumption; [|apply noOuterWhiteSpace_trim].
    unfold JsString.trim. now rewrite <- He.
  - intros pre core post Ht Hpre Hpost Hcore.
    assert (Htrim : JsString.trim (filters_title f) = core)
      by (rewrite Ht; now apply trim_core).
    assert (Hself : JsString.trim core = core).
    { rewrite <- Htrim at 1. rewrite trim_idempotent. exact Htrim. }
    assert (Hsame : handleFilterFormSubmit f s
                    = handleFilterFormSubmit (withTitle core f) s).
    { apply handleFilterFormSubmit_depends_on_result.
      unfold filterResult, withTitle. simpl. now rewrite Htrim, Hself. }
    assert (Hsel : Selects (fun b => TitleOk core b
                                     /\ AuthorOk (filters_author f) b
                                     /\ GenreOk (filters_genre f) b)
                     books (matches (handleFilterFormSubmit f s))).
    { rewrite handleFilterFormSubmit_matches, filterResult_filter.
      apply filter_Selects. intros b. rewrite passesGuards_iff.
      unfold SatisfiesAllTrimmed. now rewrite Htrim. }
    split; [exact Hsame|]. split; [exact Hsel|].
    intros ->. split; [exact Hsame|].
    rewrite handleFilterFormSubmit_matches, filterResult_filter.
    apply filter_Selects. intros b. rewrite passesGuards_iff.
    unfold SatisfiesAllTrimmed. rewrite Htrim. split.
    + intros [_ Hag]. exact Hag.
    + intros Hag. split; [|exact Hag].
      exists EmptyString, EmptyString, (book_title b). now split.
Qed.

(** ** The "show more" button *)

(** C5: after every render pass the count on the "show more" control is
    max(0, totalMatches - page * pageSize), and the control is disabled
    exactly when totalMatches - page * pageSize <= 0. *)
Theorem remaining_count_after_render (r : RenderPass) (s : State) :
  remaining (button (renderPass r s))
  = Z.max 0 (arrayLength (matches (renderPass r s))
             - page (renderPass r s) * BOOKS_PER_PAGE)
  /\ (disabled (button (renderPass r s)) = true
      <-> arrayLength (matches (renderPass r s))
          - page (renderPass r s) * BOOKS_PER_PAGE <= 0).
Proof.
  destruct r; simpl renderPass.
  - rewrite load_eq. simpl. split; [reflexivity|].
    rewrite negb_true_iff, Z.gtb_ltb, Z.ltb_ge. reflexivity.
  - rewrite handleFilterFormSubmit_eq. simpl. split; [reflexivity|].
    rewrite negb_true_iff, Z.gtb_ltb, Z.ltb_ge. reflexivity.
  - rewrite handleListButtonClick_eq. simpl. split; [reflexivity|].
    rewrite negb_true_iff, Z.gtb_ltb, Z.ltb_ge. reflexivity.
Qed.

(** ** The window handed to [slice] *)

Lemma sliceArgs_short (m : list Book) (j : Z) :
  arrayLength m < 36 -> sliceArgs m 0 j = (0 - 36, arrayLength m).
Proof.
  intros H. unfold sliceArgs.
  replace (0 + 36 >? arrayLength m) with true; [reflexivity|].
  symmetry. apply Z.gtb_lt. lia.
Qed.

Lemma sliceArgs_full (m : list Book) (j : Z) :
  36 <= arrayLength m -> sliceArgs m 0 j = (0, j).
Proof.
  intros H. unfold sliceArgs.
  replace (0 + 36 >? arrayLength m) with false; [reflexivity|].
  symmetry. rewrite Z.gtb_ltb. apply Z.ltb_ge. lia.
Qed.

Lemma sliceArgs_clamped (m : list Book) (i j : Z) :
  arrayLength m < i + 36 -> sliceArgs m i j = (i - 36, arrayLength m).
Proof.
  intros H. unfold sliceArgs.
  replace (i + 36 >? arrayLength m) with true; [reflexivity|].
  symmetry. apply Z.gtb_lt. lia.
Qed.

Lemma sliceArgs_kept (m : list Book) (i j : Z) :
  i + 36 <= arrayLength m -> sliceArgs m i j = (i, j).
Proof.
  intros H. unfold sliceArgs.
  replace (i + 36 >? arrayLength m) with false; [reflexivity|].
  symmetry. rewrite Z.gtb_ltb. apply Z.ltb_ge. lia.
Qed.

(** The first window of a render with the default range. *)
Lemma default_window_first_36 (m : list Book) :
  slice m (fst (sliceArgs m 0 36)) (snd (sliceArgs m 0 36)) = firstn 36 m.
Proof.
  destruct (Z.lt_ge_cases (arrayLength m) 36) as [H | H].
  - rewrite sliceArgs_short by exact H. simpl fst; simpl snd.
    rewrite slice_last_36_whole by exact H.
    symmetry. apply firstn_all2. unfold arrayLength in H. lia.
  - rewrite sliceArgs_full by exact H. simpl fst; simpl snd.
    now rewrite slice_prefix by lia.
Qed.

Lemma renderPass_items (r : RenderPass) (s : State) :
  items (renderPass r s)
  = passBase r s
    ++ map createPreview
         (slice (passMatches r s) (fst (passWindow r s)) (snd (passWindow r s))).
Proof.
  destruct r; simpl renderPass.
  - now rewrite load_eq.
  - now rewrite handleFilterFormSubmit_eq.
  - now rewrite handleListButtonClick_eq.
Qed.

Lemma default_window_bounds (m : list Book) :
  let w := sliceArgs m 0 36 in
  0 <= snd w <= arrayLength m
  /\ (fst w = 0 \/ (fst w = -36 /\ arrayLength m < 36)).
Proof.
  pose proof (arrayLength_nonneg m) as Hl.
  destruct (Z.lt_ge_cases (arrayLength m) 36) as [H | H].
  - rewrite sliceArgs_short by exact H. simpl. split; [lia | right; lia].
  - rewrite sliceArgs_full by exact H. simpl. split; [lia | now left].
Qed.

Lemma more_window_bounds (m : list Book) (p : Z) :
  1 <= p ->
  let w := sliceArgs m ((p + 1) * 36) ((p + 1 + 1) * 36) in
  0 <= snd w <= arrayLength m /\ 0 <= fst w.
Proof.
  intros Hp. pose proof (arrayLength_nonneg m) as Hl.
  destruct (Z.lt_ge_cases (arrayLength m) ((p + 1) * 36 + 36)) as [H | H].
  - rewrite sliceArgs_clamped by exact H. simpl. lia.
  - rewrite sliceArgs_kept by exact H. simpl. lia.
Qed.

(** C3 (as amended): the slice taken in a render pass lies within the
    result set.  The end index handed to [slice] is between 0 and the
    result set's length; the start index is >= 0 in every "show more"
    pass, and is 0 in an initial render or a filter submission unless
    the result set has fewer than 36 items, where it is -36, which
    [slice] counts from the end; the items extracted are always those
    of a window [from, to) with 0 <= from and to <= length. *)
Theorem slice_window_bounds (r : RenderPass) (s : State) :
  BOOKS_PER_PAGE = 36 ->
  r = InitialRender \/ reachable s ->
  let m := passMatches r s in
  let i := fst (passWindow r s) in
  let j := snd (passWindow r s) in
  items (renderPass r s) = passBase r s ++ map createPreview (slice m i j)
  /\ 0 <= j <= arrayLength m
  /\ (r = ShowMore -> 0 <= i)
  /\ (r <> ShowMore -> i = 0 \/ (i = -36 /\ arrayLength m < 36))
  /\ exists from to,
       0 <= from <= arrayLength m /\ 0 <= to <= arrayLength m
       /\ slice m i j = firstn (Z.to_nat (to - from)) (skipn (Z.to_nat from) m).
Proof.
  intros Hsize Hs m i j.
  split; [apply renderPass_items|].
  assert (Hwin : 0 <= j <= arrayLength m
                 /\ (r = ShowMore -> 0 <= i)
                 /\ (r <> ShowMore -> i = 0 \/ (i = -36 /\ arrayLength m < 36))).
  { subst m i j. destruct r; unfold passWindow, range; rewrite Hsize;
      simpl fst; simpl snd.
    - destruct (default_window_bounds (passMatches InitialRender s)) as [H1 H2].
      repeat split; try apply H1; [discriminate | intros _; exact H2].
    - destruct (default_window_bounds (passMatches (FilterSubmission filters) s))
        as [H1 H2].
      repeat split; try apply H1; [discriminate | intros _; exact H2].
    - destruct Hs as [Hs | Hs]; [discriminate|].
      destruct (reachable_consistent s Hs) as [Hp _].
      destruct (more_window_bounds (matches s) (page s) Hp) as [H1 H2].
      repeat split; try apply H1; [intros _; exact H2 | intros H; now elim H]. }
  destruct Hwin as [Hj [Hi1 Hi2]]. repeat split; try assumption; try apply Hj.
  exists (relativeIndex (arrayLength m) i), (relativeIndex (arrayLength m) j).
  pose proof (arrayLength_nonneg m) as Hl.
  repeat split; try apply relativeIndex_bounds; assumption.
Qed.

(** ** Pagination *)

(** C6: with 40 books and page size 36, the initial render appends the
    items at indices [0,36) and the control reports 4 remaining; one
    "show more" click appends the items at indices [36,40), and only
    those, and the control is disabled and reports 0. *)
Theorem forty_books_scenario (s0 : State) :
  BOOKS_PER_PAGE = 36 ->
  arrayLength books = 40 ->
  let s1 := load s0 in
  let s2 := handleListButtonClick s1 in
  items s1 = items s0 ++ map createPreview (firstn 36 books)
  /\ remaining (button s1) = 4
  /\ disabled (button s1) = false
  /\ items s2 = items s1 ++ map createPreview (skipn 36 books)
  /\ List.length (skipn 36 books) = 4%nat
  /\ remaining (button s2) = 0
  /\ disabled (button s2) = true.
Proof.
  intros Hsize Hlen s1 s2. subst s2 s1.
  rewrite handleListButtonClick_eq, load_eq.
  cbn [items button remaining disabled matches page].
  rewrite Hsize, Hlen.
  rewrite sliceArgs_full by lia.
  rewrite sliceArgs_clamped by lia. cbn [fst snd].
  rewrite slice_prefix by lia. rewrite slice_suffix by lia.
  change (Z.to_nat 36) with 36%nat.
  change (Z.to_nat ((1 + 1) * 36 - 36)) with 36%nat.
  rewrite length_skipn. unfold arrayLength in Hlen.
  repeat split; try reflexivity. lia.
Qed.

Lemma click_when_exhausted (s : State) :
  BOOKS_PER_PAGE = 36 ->
  booksLeft s <= 0 ->
  items (handleListButtonClick s) = items s
  /\ button (handleListButtonClick s) = mkButton 0 true
  /\ booksLeft (handleListButtonClick s) <= 0.
Proof.
  unfold booksLeft. intros Hsize Hleft. rewrite handleListButtonClick_eq. simpl.
  rewrite Hsize in *. pose proof (arrayLength_nonneg (matches s)) as Hl.
  rewrite sliceArgs_clamped by lia. simpl fst; simpl snd.
  rewrite slice_past_end by lia. simpl. rewrite app_nil_r.
  repeat split; [|lia].
  rewrite Z.max_l by lia. f_equal.
  rewrite negb_true_iff, Z.gtb_ltb. apply Z.ltb_ge. lia.
Qed.

Lemma clicks_when_exhausted (n : nat) (s : State) :
  BOOKS_PER_PAGE = 36 ->
  booksLeft s <= 0 ->
  items (clicks (S n) s) = items s /\ button (clicks (S n) s) = mkButton 0 true.
Proof.
  intros Hsize. revert s. induction n as [|n IH]; intros s Hleft.
  - simpl. destruct (click_when_exhausted s Hsize Hleft) as [Hi [Hb _]]. now split.
  - destruct (click_when_exhausted s Hsize Hleft) as [Hi [_ Hl]].
    change (clicks (S (S n)) s) with (clicks (S n) (handleListButtonClick s)).
    destruct (IH _ Hl) as [Hi' Hb']. split; [now rewrite Hi' | exact Hb'].
Qed.

(** X15: in a reachable state whose button reports zero remaining, every
    further "show more" invocation appends no preview, and after each of
    them the button still reports zero and is disabled. *)
Theorem show_more_after_exhaustion (s : State) (n : nat) :
  BOOKS_PER_PAGE = 36 ->
  reachable s ->
  remaining (button s) = 0 ->
  items (clicks (S n) s) = items (clicks n s)
  /\ items (clicks (S n) s) = items s
  /\ remaining (button (clicks (S n) s)) = 0
  /\ disabled (button (clicks (S n) s)) = true.
Proof.
  intros Hsize Hs Hzero.
  destruct (reachable_consistent s Hs) as [_ [Hb _]].
  rewrite Hb in Hzero. simpl in Hzero.
  assert (Hleft : booksLeft s <= 0) by lia.
  destruct (clicks_when_exhausted n s Hsize Hleft) as [Hi Hbut].
  rewrite Hi, Hbut. repeat split; try reflexivity.
  destruct n as [|n]; [reflexivity|].
  symmetry. apply (clicks_when_exhausted n s Hsize Hleft).
Qed.

(** C8: after a filter submission, whatever page was reached before, the
    page is 1, the previews rendered before are gone, and the list shows
    exactly the first window of the new result set. *)
Theorem filter_submit_first_window (f : Filters) (s : State) :
  BOOKS_PER_PAGE = 36 ->
  page (handleFilterFormSubmit f s) = 1
  /\ matches (handleFilterFormSubmit f s) = filterResult f
  /\ items (handleFilterFormSubmit f s)
     = map createPreview (firstn 36 (filterResult f)).
Proof.
  intros Hsize. rewrite handleFilterFormSubmit_eq.
  cbn [items matches page]. rewrite Hsize.
  now rewrite default_window_first_36.
Qed.

(** ** The detail overlay *)

Lemma findBook_none (bs : list Book) (previewId : string) :
  findBook bs previewId = None <-> forall b, In b bs -> book_id b <> previewId.
Proof.
  induction bs as [|b bs IH]; simpl.
  - split; [intros _ b [] | reflexivity].
  - destruct (String.eqb_spec (book_id b) previewId) as [E | E].
    + split; [discriminate | intros H; exfalso; apply (H b); [now left | exact E]].
    + rewrite IH. split.
      * intros H b' [<- | Hin]; [exact E | now apply H].
      * intros H b' Hin. apply H. now right.
Qed.

Lemma findBook_first (bs : list Book) (previewId : string) (b : Book) :
  findBook bs previewId = Some b
  <-> exists before after,
        bs = before ++ b :: after
        /\ book_id b = previewId
        /\ forall b', In b' before -> book_id b' <> previewId.
Proof.
  induction bs as [|x bs IH]; simpl.
  - split; [discriminate | intros [[|? ?] [after [H _]]]; discriminate].
  - destruct (String.eqb_spec (book_id x) previewId) as [E | E].
    + split.
      * intros H. injection H as <-. exists [], bs. repeat split; [exact E | intros b' []].
      * intros [before [after [H [Hid Hno]]]]. destruct before as [|y before].
        -- simpl in H. now injection H as -> _.
        -- simpl in H. injection H as -> _. exfalso. apply (Hno y); [now left | exact E].
    + rewrite IH. split.
      * intros [before [after [-> [Hid Hno]]]]. exists (x :: before), after.
        repeat split; [exact Hid|]. intros b' [<- | Hin]; [exact E | now apply Hno].
      * intros [before [after [H [Hid Hno]]]]. destruct before as [|y before].
        -- simpl in H. injection H as -> _. contradiction.
        -- simpl in H. injection H as -> ->. exists before, after.
           repeat split; [exact Hid|]. intros b' Hin. apply Hno. now right.
Qed.

Lemma findBook_resolvable (previewId : string) :
  previewId <> EmptyString ->
  findBook books previewId = None -> ~ resolvable previewId.
Proof.
  intros _ Hnone [_ [b [Hin Hid]]].
  now apply (proj1 (findBook_none books previewId) Hnone b Hin).
Qed.

Lemma scanPath_unresolvable (pathArray : list PathNode) :
  (forall previewId, In (Some previewId) pathArray -> ~ resolvable previewId) ->
  scanPath pathArray = None.
Proof.
  induction pathArray as [|node rest IH]; intros H; simpl; [reflexivity|].
  assert (Hrest : scanPath rest = None).
  { apply IH. intros p Hin. apply H. now right. }
  destruct node as [previewId|]; [|exact Hrest].
  destruct (String.eqb_spec previewId EmptyString) as [E | E]; [exact Hrest|].
  destruct (findBook books previewId) as [b|] eqn:F; [|exact Hrest].
  exfalso. apply (H previewId); [now left|]. split; [exact E|].
  apply findBook_first in F. destruct F as [before [after [Hb [Hid _]]]].
  exists b. split; [|exact Hid]. rewrite Hb. apply in_elt.
Qed.

Lemma scanPath_skips (before rest : list PathNode) :
  (forall previewId, In (Some previewId) before -> ~ resolvable previewId) ->
  scanPath (before ++ rest) = scanPath rest.
Proof.
  induction before as [|node before IH]; intros H; simpl; [reflexivity|].
  assert (Hrest : scanPath (before ++ rest) = scanPath rest).
  { apply IH. intros p Hin. apply H. now right. }
  destruct node as [previewId|]; [|exact Hrest].
  destruct (String.eqb_spec previewId EmptyString) as [E | E]; [exact Hrest|].
  destruct (findBook books previewId) as [b|] eqn:F; [|exact Hrest].
  exfalso. apply (H previewId); [now left|]. split; [exact E|].
  apply findBook_first in F. destruct F as [bs1 [bs2 [Hb [Hid _]]]].
  exists b. split; [|exact Hid]. rewrite Hb. apply in_elt.
Qed.

(** C9 (as amended): a click whose event path has no element carrying a
    non-empty preview identifier equal to some book's id leaves the page
    as it is; otherwise the handler takes the first such element of the
    path, selects the first book of the Book Store whose id equals its
    identifier, and opens the detail overlay populated from that book. *)
Theorem list_item_click_lookup (pathArray : list PathNode) (s : State) :
  ((forall previewId, In (Some previewId) pathArray -> ~ resolvable previewId) ->
   handleListItemClick pathArray s = s)
  /\ (forall before previewId after,
        pathArray = before ++ Some previewId :: after ->
        (forall p, In (Some p) before -> ~ resolvable p) ->
        resolvable previewId ->
        exists b,
          firstWithId previewId b
          /\ handleListItemClick pathArray s = showDetail b s
          /\ detail_open (detail (handleListItemClick pathArray s)) = true).
Proof.
  split.
  - intros H. unfold handleListItemClick. now rewrite scanPath_unresolvable.
  - intros before previewId after -> Hbefore [Hne [b0 [Hin Hid]]].
    unfold handleListItemClick. rewrite scanPath_skips by exact Hbefore.
    simpl. destruct (String.eqb_spec previewId EmptyString) as [E | _];
      [contradiction|].
    destruct (findBook books previewId) as [b|] eqn:F.
    + exists b. repeat split. now apply findBook_first.
    + exfalso. now apply (proj1 (findBook_none books previewId) F b0 Hin).
Qed.

(** ** More about the filter *)

Lemma filter_nil_iff {A : Type} (p : A -> bool) (l : list A) :
  filter p l = [] <-> forall x, In x l -> p x = false.
Proof.
  induction l as [|x l IH]; simpl.
  - split; [intros _ x [] | reflexivity].
  - destruct (p x) eqn:E.
    + split; [discriminate | intros H; specialize (H x (or_introl eq_refl)); congruence].
    + rewrite IH. split.
      * intros H y [<- | Hy]; [exact E | now apply H].
      * intros H y Hy. apply H. now right.
Qed.

Lemma filter_everything {A : Type} (p : A -> bool) (l : list A) :
  (forall x, In x l -> p x = true) -> filter p l = l.
Proof.
  induction l as [|x l IH]; intros H; simpl; [reflexivity|].
  rewrite (H x (or_introl eq_refl)). f_equal. apply IH. intros y Hy. apply H. now right.
Qed.

Lemma filter_Subsequence_mono {A : Type} (p q : A -> bool) (l : list A) :
  (forall x, p x = true -> q x = true) -> Subsequence (filter p l) (filter q l).
Proof.
  intros H. induction l as [|x l IH]; simpl; [constructor|].
  destruct (p x) eqn:E.
  - rewrite (H x E). now constructor.
  - destruct (q x); [now constructor | exact IH].
Qed.

Lemma arrayLength_lt_1 {A : Type} (l : list A) :
  (arrayLength l <? 1) = true <-> l = [].
Proof.
  rewrite Z.ltb_lt. unfold arrayLength. destruct l as [|x l]; simpl.
  - split; [reflexivity | lia].
  - split; [lia | discriminate].
Qed.

Lemma isWhiteSpace_lowerUnit (c : ascii) :
  JsString.isWhiteSpace (JsString.lowerUnit c) = JsString.isWhiteSpace c.
Proof.
  destruct c as [b0 b1 b2 b3 b4 b5 b6 b7].
  destruct b0, b1, b2, b3, b4, b5, b6, b7; reflexivity.
Qed.

Lemma toLowerCase_empty (s : string) :
  (JsString.toLowerCase s =? EmptyString)%string = (s =? EmptyString)%string.
Proof. destruct s; reflexivity. Qed.

Lemma trimStart_toLowerCase (s : string) :
  JsString.trimStart (JsString.toLowerCase s)
  = JsString.toLowerCase (JsString.trimStart s).
Proof.
  induction s as [|c s IH]; simpl; [reflexivity|].
  rewrite isWhiteSpace_lowerUnit. destruct (JsString.isWhiteSpace c); [exact IH | reflexivity].
Qed.

Lemma trimEnd_toLowerCase (s : string) :
  JsString.trimEnd (JsString.toLowerCase s)
  = JsString.toLowerCase (JsString.trimEnd s).
Proof.
  induction s as [|c s IH]; simpl; [reflexivity|].
  rewrite isWhiteSpace_lowerUnit, IH, toLowerCase_empty.
  destruct (JsString.isWhiteSpace c && (JsString.trimEnd s =? EmptyString)%string);
    reflexivity.
Qed.

Lemma trim_toLowerCase (s : string) :
  JsString.trim (JsString.toLowerCase s) = JsString.toLowerCase (JsString.trim s).
Proof.
  unfold JsString.trim. now rewrite trimStart_toLowerCase, trimEnd_toLowerCase.
Qed.

Lemma passesGuards_relaxed (f g : Filters) (b : Book) :
  (g = withTitle EmptyString f
   \/ g = mkFilters (filters_title f) "any" (filters_genre f)
   \/ g = mkFilters (filters_title f) (filters_author f) "any") ->
  passesGuards f b = true -> passesGuards g b = true.
Proof.
  unfold passesGuards, withTitle. intros [-> | [-> | ->]]; simpl;
    rewrite !andb_true_iff; intros [[Ht Ha] Hg]; repeat split; assumption.
Qed.

(** X1: a submission whose title text is empty or white space only, with
    both selectors on "any", selects every book: the result set is the
    book list, the page is 1, and the previews and the button are those
    of the initial render of an empty list element. *)
Theorem empty_form_restores_listing (titleText : string) (s s0 : State) :
  JsString.allWhiteSpace titleText = true ->
  items s0 = [] ->
  matches (handleFilterFormSubmit (mkFilters titleText "any" "any") s) = books
  /\ page (handleFilterFormSubmit (mkFilters titleText "any" "any") s) = 1
  /\ items (handleFilterFormSubmit (mkFilters titleText "any" "any") s)
     = items (load s0)
  /\ button (handleFilterFormSubmit (mkFilters titleText "any" "any") s)
     = button (load s0).
Proof.
  intros Hws Hempty.
  assert (Hres : filterResult (mkFilters titleText "any" "any") = books).
  { rewrite filterResult_filter. apply filter_everything. intros b _.
    unfold passesGuards. simpl. now rewrite (trim_allWhiteSpace _ Hws). }
  rewrite handleFilterFormSubmit_eq, load_eq, Hres, Hempty. now repeat split.
Qed.

(** X2: the "no results" message is shown after a filter submission
    exactly when no book of the book list satisfies the three predicates
    (on the trimmed title text); the rendered list is then empty. *)
Theorem no_results_message (f : Filters) (s : State) :
  (message_show (handleFilterFormSubmit f s) = true
   <-> forall b, In b books -> ~ SatisfiesAllTrimmed f b)
  /\ (message_show (handleFilterFormSubmit f s) = true ->
      items (handleFilterFormSubmit f s) = []).
Proof.
  rewrite handleFilterFormSubmit_eq. cbn [message_show items]. split.
  - rewrite arrayLength_lt_1, filterResult_filter, filter_nil_iff. split.
    + intros H b Hin Hsat. apply passesGuards_iff in Hsat.
      rewrite (H b Hin) in Hsat. discriminate.
    + intros H b Hin. destruct (passesGuards f b) eqn:E; [|reflexivity].
      exfalso. apply (H b Hin). now apply passesGuards_iff.
  - rewrite arrayLength_lt_1. intros ->. reflexivity.
Qed.

(** X3: the case of the letters of the title text does not matter: two
    title texts that are equal up to case give the same page. *)
Theorem filter_ignores_case_of_title (t t' : string) (f : Filters) (s : State) :
  JsString.toLowerCase t = JsString.toLowerCase t' ->
  handleFilterFormSubmit (withTitle t f) s = handleFilterFormSubmit (withTitle t' f) s.
Proof.
  intros H. apply handleFilterFormSubmit_depends_on_result.
  unfold filterResult, withTitle. simpl.
  now rewrite <- !trim_toLowerCase, H.
Qed.

(** X4: relaxing a criterion only adds books: the result set of a
    submission is a subsequence of the result set of the same submission
    with the title text emptied, with the author selector on "any", or
    with the genre selector on "any". *)
Theorem filter_relaxed_selectors (f : Filters) :
  Subsequence (filterResult f) (filterResult (withTitle EmptyString f))
  /\ Subsequence (filterResult f)
       (filterResult (mkFilters (filters_title f) "any" (filters_genre f)))
  /\ Subsequence (filterResult f)
       (filterResult (mkFilters (filters_title f) (filters_author f) "any")).
Proof.
  rewrite !filterResult_filter.
  repeat split; apply filter_Subsequence_mono; intros b;
    apply passesGuards_relaxed; auto.
Qed.

(** X5: a filter submission forgets what was paged or filtered before:
    after "show more" clicks or an earlier submission it gives the same
    page as when submitted at once, and submitting it twice changes
    nothing more. *)
Theorem filter_submit_forgets_history (f g : Filters) (n : nat) (s : State) :
  handleFilterFormSubmit f (clicks n s) = handleFilterFormSubmit f s
  /\ handleFilterFormSubmit f (handleFilterFormSubmit g s) = handleFilterFormSubmit f s
  /\ handleFilterFormSubmit f (handleFilterFormSubmit f s) = handleFilterFormSubmit f s.
Proof.
  assert (Hclicks : forall k st, detail (clicks k st) = detail st).
  { induction k as [|k IH]; intros st; simpl; [reflexivity|].
    rewrite IH, handleListButtonClick_eq. reflexivity. }
  repeat split; rewrite !handleFilterFormSubmit_eq; cbn [detail];
    now rewrite ?Hclicks.
Qed.

(** ** More about pagination *)

Lemma In_firstn_list {A : Type} (n : nat) (l : list A) (x : A) :
  In x (firstn n l) -> In x l.
Proof. intros H. rewrite <- (firstn_skipn n l). apply in_or_app. now left. Qed.

Lemma In_skipn_list {A : Type} (n : nat) (l : list A) (x : A) :
  In x (skipn n l) -> In x l.
Proof. intros H. rewrite <- (firstn_skipn n l). apply in_or_app. now right. Qed.

Lemma In_slice {A : Type} (l : list A) (i j : Z) (x : A) :
  In x (slice l i j) -> In x l.
Proof. unfold slice. intros H. now apply In_firstn_list, In_skipn_list in H. Qed.

Lemma Subsequence_In {A : Type} (r l : list A) (x : A) :
  Subsequence r l -> In x r -> In x l.
Proof.
  induction 1 as [| y r l _ IH | y r l _ IH]; intros Hin.
  - exact Hin.
  - destruct Hin as [-> | Hin]; [now left | right; now apply IH].
  - right. now apply IH.
Qed.

Lemma slice_inner {A : Type} (l : list A) (i j : Z) :
  0 <= i -> i <= j -> j <= arrayLength l ->
  slice l i j = firstn (Z.to_nat (j - i)) (skipn (Z.to_nat i) l).
Proof.
  intros Hi Hij Hj. unfold slice, relativeIndex.
  replace (i <? 0) with false by (symmetry; apply Z.ltb_ge; exact Hi).
  replace (j <? 0) with false by (symmetry; apply Z.ltb_ge; lia).
  now rewrite !Z.min_l by lia.
Qed.

Lemma dispatch_items_from_matches (e : Event) (s : State) :
  (forall p, In p (items s) -> exists b, In b (matches s) /\ p = createPreview b) ->
  forall p, In p (items (dispatch e s)) ->
            exists b, In b (matches (dispatch e s)) /\ p = createPreview b.
Proof.
  intros H. destruct e; simpl; try exact H.
  - rewrite handleListButtonClick_eq. cbn [items matches]. intros p Hp.
    apply in_app_or in Hp. destruct Hp as [Hp | Hp]; [now apply H|].
    apply in_map_iff in Hp. destruct Hp as [b [<- Hb]].
    exists b. split; [now apply In_slice in Hb | reflexivity].
  - unfold handleListItemClick. destruct (scanPath pathArray); exact H.
  - rewrite handleFilterFormSubmit_eq. cbn [items matches]. intros p Hp.
    apply in_map_iff in Hp. destruct Hp as [b [<- Hb]].
    exists b. split; [now apply In_slice in Hb | reflexivity].
Qed.

Lemma run_items_from_matches (events : list Event) (s : State) :
  (forall p, In p (items s) -> exists b, In b (matches s) /\ p = createPreview b) ->
  forall p, In p (items (run events s)) ->
            exists b, In b (matches (run events s)) /\ p = createPreview b.
Proof.
  revert s. induction events as [|e events IH]; intros s H; simpl; [exact H|].
  apply IH. now apply dispatch_items_from_matches.
Qed.

(** X6: in every state the page can be in, the page number is at least
    1, the result set is a subsequence of the book list, the count on the
    "show more" button is max(0, matches - page * pageSize) and the button
    is disabled exactly when that difference is not positive, whichever
    events came last. *)
Theorem reachable_invariant (s : State) :
  reachable s ->
  1 <= page s
  /\ Subsequence (matches s) books
  /\ remaining (button s)
     = Z.max 0 (arrayLength (matches s) - page s * BOOKS_PER_PAGE)
  /\ (disabled (button s) = true
      <-> arrayLength (matches s) - page s * BOOKS_PER_PAGE <= 0).
Proof.
  intros [s0 [events ->]].
  destruct (run_consistent events (load s0) (load_consistent s0)) as [Hp [Hb Hm]].
  unfold booksLeft in Hb. rewrite Hb. cbn [remaining disabled].
  repeat split; try assumption.
  - rewrite negb_true_iff, Z.gtb_ltb, Z.ltb_ge. auto.
  - rewrite negb_true_iff, Z.gtb_ltb, Z.ltb_ge. auto.
Qed.

(** X7: when the list element is empty before the script runs, every
    preview on the page, after any events, is the preview of a book of the
    current result set, which is a book of the book list. *)
Theorem rendered_from_matches (s0 : State) (events : list Event) (p : Preview) :
  items s0 = [] ->
  In p (items (run events (load s0))) ->
  exists b, In b (matches (run events (load s0)))
            /\ In b books
            /\ p = createPreview b.
Proof.
  intros Hempty Hp.
  assert (Hload : forall q, In q (items (load s0)) ->
                            exists b, In b (matches (load s0)) /\ q = createPreview b).
  { rewrite load_eq, Hempty. cbn [items matches app]. intros q Hq.
    apply in_map_iff in Hq. destruct Hq as [b [<- Hb]].
    exists b. split; [now apply In_slice in Hb | reflexivity]. }
  destruct (run_items_from_matches events (load s0) Hload p Hp) as [b [Hb ->]].
  exists b. repeat split; [exact Hb|].
  destruct (run_consistent events (load s0) (load_consistent s0)) as [_ [_ Hm]].
  now apply (Subsequence_In _ _ _ Hm).
Qed.

(** X8: only "show more" and a filter submission touch the listing: any
    other event leaves the result set, the page number, the rendered
    previews, the button and the "no results" message as they were. *)
Theorem other_events_keep_listing (e : Event) (s : State) :
  rendersPreviews e = false ->
  matches (dispatch e s) = matches s
  /\ page (dispatch e s) = page s
  /\ items (dispatch e s) = items s
  /\ button (dispatch e s) = button s
  /\ message_show (dispatch e s) = message_show s.
Proof.
  destruct e; simpl; intros H; try discriminate; try now repeat split.
  unfold handleListItemClick. destruct (scanPath pathArray); now repeat split.
Qed.

(** X9: a book list of at most two pages is rendered completely and
    without repetition.  With at most 36 books the initial render appends
    all of them and disables the button; with 37 to 72 books it leaves the
    button enabled, and one "show more" click completes the list and
    disables the button. *)
Theorem short_lists_render_completely (s0 : State) :
  BOOKS_PER_PAGE = 36 ->
  (arrayLength books <= 36 ->
   items (load s0) = items s0 ++ map createPreview books
   /\ disabled (button (load s0)) = true)
  /\ (36 < arrayLength books <= 72 ->
      disabled (button (load s0)) = false
      /\ items (handleListButtonClick (load s0)) = items s0 ++ map createPreview books
      /\ disabled (button (handleListButtonClick (load s0))) = true).
Proof.
  intros Hsize. split.
  - intros Hlen. rewrite load_eq. cbn [items button disabled]. rewrite Hsize.
    rewrite default_window_first_36.
    rewrite firstn_all2 by (unfold arrayLength in Hlen; lia).
    split; [reflexivity|]. rewrite negb_true_iff, Z.gtb_ltb. apply Z.ltb_ge. lia.
  - intros Hlen. rewrite handleListButtonClick_eq, load_eq.
    cbn [items button disabled matches page]. rewrite Hsize.
    rewrite default_window_first_36.
    rewrite sliceArgs_clamped by lia. cbn [fst snd].
    rewrite slice_suffix by lia.
    change (Z.to_nat ((1 + 1) * 36 - 36)) with 36%nat.
    rewrite <- app_assoc, <- map_app, firstn_skipn.
    repeat split.
    + rewrite negb_false_iff. apply Z.gtb_lt. lia.
    + rewrite negb_true_iff, Z.gtb_ltb. apply Z.ltb_ge. lia.
Qed.

(** X10: what a "show more" click appends, 36 books a page, from page
    number p >= 0: when the result set has at least (p+2)*36 books, the 36
    books at indices [(p+1)*36, (p+2)*36); otherwise all the books from
    index p*36 to the end.  The page number grows by one and the result
    set stays. *)
Theorem show_more_appends (s : State) :
  BOOKS_PER_PAGE = 36 ->
  0 <= page s ->
  items (handleListButtonClick s)
  = items s
    ++ map createPreview
         (if (page s + 2) * 36 <=? arrayLength (matches s)
          then firstn 36 (skipn (Z.to_nat ((page s + 1) * 36)) (matches s))
          else skipn (Z.to_nat (page s * 36)) (matches s))
  /\ page (handleListButtonClick s) = page s + 1
  /\ matches (handleListButtonClick s) = matches s.
Proof.
  intros Hsize Hpage. rewrite handleListButtonClick_eq.
  cbn [items page matches]. rewrite Hsize.
  repeat split. f_equal. f_equal.
  destruct ((page s + 2) * 36 <=? arrayLength (matches s)) eqn:E.
  - apply Z.leb_le in E. rewrite sliceArgs_kept by lia. cbn [fst snd].
    rewrite slice_inner by lia.
    replace ((page s + 1 + 1) * 36 - (page s + 1) * 36) with 36 by lia.
    reflexivity.
  - apply Z.leb_gt in E. rewrite sliceArgs_clamped by lia. cbn [fst snd].
    rewrite slice_suffix by lia. f_equal. f_equal. lia.
Qed.

Lemma clicks_snoc (n : nat) (s : State) :
  clicks (S n) s = handleListButtonClick (clicks n s).
Proof.
  revert s. induction n as [|n IH]; intros s; [reflexivity|].
  change (clicks (S (S n)) s) with (clicks (S n) (handleListButtonClick s)).
  now rewrite IH.
Qed.

Lemma clicks_page_matches (n : nat) (s : State) :
  page (clicks n s) = page s + Z.of_nat n /\ matches (clicks n s) = matches s.
Proof.
  induction n as [|n [IHp IHm]].
  - simpl. split; [lia | reflexivity].
  - rewrite clicks_snoc, handleListButtonClick_eq. cbn [page matches].
    split; [lia | exact IHm].
Qed.

(** X11: n+1 "show more" clicks in a row add n+1 to the page number and
    keep the result set; the button then shows
    max(0, matches - (page + n + 1) * pageSize) and is disabled exactly
    when the result set has at most (page + n + 1) * pageSize books. *)
Theorem clicks_compose (n : nat) (s : State) :
  page (clicks (S n) s) = page s + Z.of_nat (S n)
  /\ matches (clicks (S n) s) = matches s
  /\ remaining (button (clicks (S n) s))
     = Z.max 0 (arrayLength (matches s) - (page s + Z.of_nat (S n)) * BOOKS_PER_PAGE)
  /\ (disabled (button (clicks (S n) s)) = true
      <-> arrayLength (matches s) <= (page s + Z.of_nat (S n)) * BOOKS_PER_PAGE).
Proof.
  destruct (clicks_page_matches (S n) s) as [Hp Hm].
  destruct (clicks_page_matches n s) as [Hp' Hm'].
  repeat split; try assumption;
    rewrite clicks_snoc, handleListButtonClick_eq; cbn [button remaining disabled];
    rewrite Hp', Hm'.
  - f_equal. lia.
  - rewrite negb_true_iff, Z.gtb_ltb, Z.ltb_ge. lia.
  - intros H. rewrite negb_true_iff, Z.gtb_ltb. apply Z.ltb_ge. lia.
Qed.

(** ** More about the overlays *)

Lemma findBook_unique (bs : list Book) (b : Book) :
  NoDup (map book_id bs) -> In b bs -> findBook bs (book_id b) = Some b.
Proof.
  induction bs as [|x bs IH]; intros Hnd Hin; [destruct Hin|].
  simpl in Hnd. inversion Hnd as [| ? ? Hnotin Hnd']; subst. simpl.
  destruct (String.eqb_spec (book_id x) (book_id b)) as [E | E].
  - destruct Hin as [-> | Hin]; [reflexivity|].
    exfalso. apply Hnotin. rewrite E. now apply in_map.
  - destruct Hin as [-> | Hin]; [now elim E | now apply IH].
Qed.

(** X12: with unique ids, a click whose path reaches, past nodes without
    a preview identifier, a node that carries the non-empty id of a book
    opens the overlay on that very book: image, title, description and
    subtitle are its own.  Closing the overlay afterwards hides it and
    keeps what it shows. *)
Theorem click_opens_clicked_book
    (b : Book) (before after : list PathNode) (s : State) :
  NoDup (map book_id books) ->
  In b books ->
  book_id b <> EmptyString ->
  (forall node, In node before -> node = None \/ node = Some EmptyString) ->
  let s' := handleListItemClick (before ++ Some (book_id b) :: after) s in
  s' = showDetail b s
  /\ detail_open (detail s') = true
  /\ image_src (detail s') = book_image b
  /\ detail_title (detail s') = book_title b
  /\ detail_description (detail s') = book_description b
  /\ detail_open (detail (handleBookPreviewCloseClick s')) = false
  /\ detail_title (detail (handleBookPreviewCloseClick s')) = book_title b.
Proof.
  intros Hnd Hin Hne Hbefore s'.
  assert (Hs' : s' = showDetail b s).
  { subst s'. unfold handleListItemClick. rewrite scanPath_skips.
    - simpl. destruct (String.eqb_spec (book_id b) EmptyString) as [E | _];
        [contradiction|].
      now rewrite (findBook_unique books b Hnd Hin).
    - intros p Hp [Hp' _]. destruct (Hbefore _ Hp) as [H | H]; [discriminate|].
      injection H as ->. now apply Hp'. }
  rewrite Hs'. now repeat split.
Qed.

(** X13: the colours are always written in pairs: after any settings
    events the calls to setProperty are those made before, followed, for
    each submitted theme whose lookup in the theme table is defined and in
    the order of submission, by --color-dark with the lookup's dark colour
    and then --color-light with its light colour; a submission whose
    lookup is undefined writes nothing. *)
Theorem theme_colours_come_in_pairs (events : list SettingsEvent) (st : Settings) :
  setProperty_calls (runSettings events st)
  = setProperty_calls st ++ flat_map themeWrites (submittedEntries events).
Proof.
  revert st. induction events as [|e events IH]; intros st; simpl.
  - now rewrite app_nil_r.
  - unfold runSettings in IH. rewrite IH. destruct e as [| | theme]; simpl;
      try reflexivity.
    unfold updateDarkLightMode.
    destruct (css (templateValue theme)) as [entry|]; simpl; [|reflexivity].
    now rewrite <- !app_assoc.
Qed.

(** X14: when the lookup of the submitted theme in the theme table is
    undefined, the handler ends in a TypeError before any setProperty call
    and leaves the settings overlay as it was.  When it is defined, the
    handler calls setProperty for --color-dark and then --color-light with
    the lookup's colours and closes the overlay; a lookup without colours,
    such as an inherited member, hands over the text "undefined" twice. *)
Theorem theme_submission (theme : option string) (st : Settings) :
  (css (templateValue theme) = None -> updateDarkLightMode theme st = TypeError st)
  /\ (forall entry,
        css (templateValue theme) = Some entry ->
        updateDarkLightMode theme st
        = Normal (mkSettings false (setProperty_calls st ++ themeWrites entry)))
  /\ (css (templateValue theme) = Some (None, None) ->
      updateDarkLightMode theme st
      = Normal (mkSettings false
                  (setProperty_calls st
                   ++ [("--color-dark", "undefined"); ("--color-light", "undefined")]%string))).
Proof.
  unfold updateDarkLightMode, themeWrites. repeat split.
  - now intros ->.
  - intros entry ->. simpl. now rewrite <- app_assoc.
  - intros ->. simpl. now rewrite <- app_assoc.
Qed.

End Catalog.

Arguments matches {Preview} _.
Arguments page {Preview} _.
Arguments items {Preview} _.
Arguments button {Preview} _.
Arguments message_show {Preview} _.
Arguments detail {Preview} _.
Arguments search_open {Preview} _.
Arguments sampleDocument {Preview}.

(** ** The theorems at concrete inputs *)

Lemma filter_title_is_trimmed_witness :
  filters_title (mkFilters "  BOOK 1 " "any" "fiction") = ("  " ++ "BOOK 1" ++ " ")%string
  /\ JsString.allWhiteSpace "  " = true
  /\ JsString.allWhiteSpace " " = true
  /\ noOuterWhiteSpace "BOOK 1" = true
  /\ handleFilterFormSubmit 36 (sampleBooks 3) string samplePreview
       (mkFilters "  BOOK 1 " "any" "fiction") sampleDocument
     = handleFilterFormSubmit 36 (sampleBooks 3) string samplePreview
         (withTitle "BOOK 1" (mkFilters "  BOOK 1 " "any" "fiction")) sampleDocument
  /\ Selects (fun b => TitleOk "BOOK 1" b /\ AuthorOk "any" b /\ GenreOk "fiction" b)
       (sampleBooks 3)
       (matches (handleFilterFormSubmit 36 (sampleBooks 3) string samplePreview
                   (mkFilters "  BOOK 1 " "any" "fiction") sampleDocument)).
Proof.
  do 4 (split; [reflexivity|]).
  destruct (proj2 (proj2 (filter_title_is_trimmed 36 (sampleBooks 3) string
                            samplePreview
                            (mkFilters "  BOOK 1 " "any" "fiction") sampleDocument))
              "  "%string "BOOK 1"%string " "%string eq_refl eq_refl eq_refl eq_refl)
    as [Hsame [Hsel _]].
  split; [exact Hsame | exact Hsel].
Defined.

Lemma slice_window_bounds_witness :
  36 = 36
  /\ (ShowMore = InitialRender
      \/ reachable 36 (sampleBooks 40) sampleAuthors string samplePreview sampleYear
           (load 36 (sampleBooks 40) string samplePreview sampleDocument))
  /\ 0 <= snd (passWindow 36 (sampleBooks 40) string ShowMore
                 (load 36 (sampleBooks 40) string samplePreview sampleDocument))
       <= 40
  /\ 0 <= fst (passWindow 36 (sampleBooks 40) string ShowMore
                 (load 36 (sampleBooks 40) string samplePreview sampleDocument)).
Proof.
  assert (Hr : ShowMore = InitialRender
               \/ reachable 36 (sampleBooks 40) sampleAuthors string samplePreview
                    sampleYear
                    (load 36 (sampleBooks 40) string samplePreview sampleDocument)).
  { right. exists sampleDocument, []. reflexivity. }
  destruct (slice_window_bounds 36 (sampleBooks 40) sampleAuthors string samplePreview
              sampleYear ShowMore
              (load 36 (sampleBooks 40) string samplePreview sampleDocument)
              eq_refl Hr) as [_ [Hj [Hi _]]].
  split; [reflexivity|]. split; [exact Hr|]. split; [exact Hj | now apply Hi].
Defined.

Lemma forty_books_scenario_witness :
  36 = 36
  /\ arrayLength (sampleBooks 40) = 40
  /\ (let s1 := load 36 (sampleBooks 40) string samplePreview sampleDocument in
      let s2 := handleListButtonClick 36 string samplePreview s1 in
      items s1 = items sampleDocument ++ map samplePreview (firstn 36 (sampleBooks 40))
      /\ remaining (button s1) = 4
      /\ disabled (button s1) = false
      /\ items s2 = items s1 ++ map samplePreview (skipn 36 (sampleBooks 40))
      /\ List.length (skipn 36 (sampleBooks 40)) = 4%nat
      /\ remaining (button s2) = 0
      /\ disabled (button s2) = true).
Proof.
  split; [reflexivity|]. split; [reflexivity|].
  apply (forty_books_scenario 36 (sampleBooks 40) string samplePreview sampleDocument);
    reflexivity.
Defined.

Lemma show_more_after_exhaustion_witness :
  36 = 36
  /\ reachable 36 (sampleBooks 40) sampleAuthors string samplePreview sampleYear
       (run 36 (sampleBooks 40) sampleAuthors string samplePreview sampleYear
            [ListButtonClick] (load 36 (sampleBooks 40) string samplePreview sampleDocument))
  /\ remaining (button
        (run 36 (sampleBooks 40) sampleAuthors string samplePreview sampleYear
             [ListButtonClick]
             (load 36 (sampleBooks 40) string samplePreview sampleDocument))) = 0
  /\ items (clicks 36 string samplePreview 3
              (run 36 (sampleBooks 40) sampleAuthors string samplePreview sampleYear
                   [ListButtonClick]
                   (load 36 (sampleBooks 40) string samplePreview sampleDocument)))
     = items (run 36 (sampleBooks 40) sampleAuthors string samplePreview sampleYear
                  [ListButtonClick]
                  (load 36 (sampleBooks 40) string samplePreview sampleDocument)).
Proof.
  assert (Hr : reachable 36 (sampleBooks 40) sampleAuthors string samplePreview sampleYear
                 (run 36 (sampleBooks 40) sampleAuthors string samplePreview sampleYear
                      [ListButtonClick]
                      (load 36 (sampleBooks 40) string samplePreview sampleDocument))).
  { exists sampleDocument, [ListButtonClick]. reflexivity. }
  split; [reflexivity|]. split; [exact Hr|]. split; [reflexivity|].
  apply (show_more_after_exhaustion 36 (sampleBooks 40) sampleAuthors string
           samplePreview sampleYear _ 2%nat eq_refl Hr eq_refl).
Defined.

Lemma filter_submit_first_window_witness :
  36 = 36
  /\ page (handleFilterFormSubmit 36 (sampleBooks 50) string samplePreview
             (mkFilters "book" "any" "fiction")
             (handleListButtonClick 36 string samplePreview
                (load 36 (sampleBooks 50) string samplePreview sampleDocument))) = 1
  /\ items (handleFilterFormSubmit 36 (sampleBooks 50) string samplePreview
              (mkFilters "book" "any" "fiction")
              (handleListButtonClick 36 string samplePreview
                 (load 36 (sampleBooks 50) string samplePreview sampleDocument)))
     = map samplePreview
         (firstn 36 (filterResult (sampleBooks 50) (mkFilters "book" "any" "fiction"))).
Proof.
  split; [reflexivity|].
  destruct (filter_submit_first_window 36 (sampleBooks 50) string samplePreview
              (mkFilters "book" "any" "fiction")
              (handleListButtonClick 36 string samplePreview
                 (load 36 (sampleBooks 50) string samplePreview sampleDocument))
              eq_refl) as [Hp [_ Hi]].
  split; assumption.
Defined.

Lemma sample_unresolvable (n : nat) (p : string) :
  (p = EmptyString \/ forall b, In b (sampleBooks n) -> book_id b <> p) ->
  ~ resolvable (sampleBooks n) p.
Proof.
  intros [-> | H] [Hne [b [Hin Hid]]]; [now apply Hne | now apply (H b)].
Qed.

Lemma list_item_click_lookup_witness :
  handleListItemClick (sampleBooks 3) sampleAuthors string sampleYear
    [None; Some "zz"%string] sampleDocument = sampleDocument
  /\ exists b,
       firstWithId (sampleBooks 3) "1" b
       /\ handleListItemClick (sampleBooks 3) sampleAuthors string sampleYear
            [None; Some EmptyString; Some "1"; Some "2"]%string sampleDocument
          = showDetail sampleAuthors string sampleYear b sampleDocument
       /\ detail_open (detail
            (handleListItemClick (sampleBooks 3) sampleAuthors string sampleYear
               [None; Some EmptyString; Some "1"; Some "2"]%string sampleDocument)) = true.
Proof.
  split.
  - apply (proj1 (list_item_click_lookup (sampleBooks 3) sampleAuthors string sampleYear
                    [None; Some "zz"%string] sampleDocument)).
    intros p [H | [H | []]]; [discriminate|]. injection H as <-.
    apply sample_unresolvable. right.
    intros b [<- | [<- | [<- | []]]]; discriminate.
  - apply (proj2 (list_item_click_lookup (sampleBooks 3) sampleAuthors string sampleYear
                    [None; Some EmptyString; Some "1"; Some "2"]%string sampleDocument)
             [None; Some EmptyString] "1"%string [Some "2"%string] eq_refl).
    + intros p [H | [H | []]]; [discriminate|]. injection H as <-.
      apply sample_unresolvable. now left.
    + split; [discriminate|]. exists (sampleBook 1). split; [|reflexivity].
      right. now left.
Defined.

(** ** Where the code and the specification part *)

(** C1, as stated, fails: with the title text " book" the book titled
    "Book 0" is selected, though " book" is not contained in its title. *)
Lemma filter_untrimmed_counterexample :
  ~ Selects (SatisfiesAll (mkFilters " book" "any" "any")) (sampleBooks 1)
      (matches (handleFilterFormSubmit 36 (sampleBooks 1) string samplePreview
                  (mkFilters " book" "any" "any") sampleDocument)).
Proof.
  change (matches (handleFilterFormSubmit 36 (sampleBooks 1) string samplePreview
                     (mkFilters " book" "any" "any") sampleDocument))
    with [sampleBook 0].
  change (sampleBooks 1) with [sampleBook 0].
  intros H. inversion H as [| x l r Hsat Hrest | x l r Hnot Hrest]; subst.
  - destruct Hsat as [Ht _]. apply includes_lower_iff in Ht. discriminate Ht.
  - inversion Hrest.
Qed.

(** C3, as stated, fails: the initial render of a one-book list hands the
    start index -36 to [slice]. *)
Lemma initial_render_negative_start :
  ~ 0 <= fst (passWindow 36 (sampleBooks 1) string InitialRender sampleDocument).
Proof.
  change (fst (passWindow 36 (sampleBooks 1) string InitialRender sampleDocument))
    with (-36).
  lia.
Qed.

(** C9, as stated, fails: the path carries the identifier of a book, the
    empty string, and the click has no effect. *)
Lemma empty_identifier_counterexample :
  (exists b, In b [mkBook EmptyString "Untitled" "cover.png" "author-1" [] "2000-01-01" EmptyString]
             /\ In (Some (book_id b)) [Some EmptyString])
  /\ handleListItemClick [mkBook EmptyString "Untitled" "cover.png" "author-1" [] "2000-01-01" EmptyString]
       sampleAuthors string sampleYear [Some EmptyString] sampleDocument
     = sampleDocument
  /\ detail_open (detail
        (handleListItemClick
           [mkBook EmptyString "Untitled" "cover.png" "author-1" [] "2000-01-01" EmptyString]
           sampleAuthors string sampleYear [Some EmptyString] sampleDocument)) = false.
Proof.
  split; [|split; reflexivity].
  eexists. split; [now left | now left].
Qed.

(** C2: with 108 books the first "show more" click appends the items at
    indices [72,108), not those at [36,72) that follow the rendered ones;
    the second click appends the items at [72,108) once more. *)
Lemma show_more_skips_a_window :
  let bs := sampleBooks 108 in
  let s1 := load 36 bs string samplePreview sampleDocument in
  let s2 := handleListButtonClick 36 string samplePreview s1 in
  let s3 := handleListButtonClick 36 string samplePreview s2 in
  items s1 = map samplePreview (firstn 36 bs)
  /\ items s2 = items s1 ++ map samplePreview (firstn 36 (skipn 72 bs))
  /\ nth 36 (items s2) EmptyString = "72"%string
  /\ disabled (button s2) = false
  /\ items s3 = items s2 ++ map samplePreview (firstn 36 (skipn 72 bs)).
Proof. vm_compute. repeat split. Qed.

(** C4: with 100 books the window requested by the first "show more"
    click, [72,108), overruns the list, and the window rendered is
    [36,100): 64 items, more than a page. *)
Lemma show_more_overfull_window :
  let bs := sampleBooks 100 in
  let s1 := load 36 bs string samplePreview sampleDocument in
  let s2 := handleListButtonClick 36 string samplePreview s1 in
  sliceArgs (matches s1) (page s2 * 36) ((page s2 + 1) * 36) = (36, 100)
  /\ items s2 = items s1 ++ map samplePreview (skipn 36 bs)
  /\ List.length (skipn 36 bs) = 64%nat.
Proof. vm_compute. repeat split. Qed.

(** C7: with 73 books the first "show more" click completes the list,
    every book rendered once, yet the button reports 1 remaining and
    stays enabled; the next click appends the preview of the last book a
    second time, and only then does the button report 0 and disable. *)
Lemma show_more_repeats_after_all_rendered :
  let bs := sampleBooks 73 in
  let s1 := load 36 bs string samplePreview sampleDocument in
  let s2 := handleListButtonClick 36 string samplePreview s1 in
  let s3 := handleListButtonClick 36 string samplePreview s2 in
  items s2 = map samplePreview bs
  /\ remaining (button s2) = 1
  /\ disabled (button s2) = false
  /\ items s3 = items s2 ++ ["72"%string]
  /\ List.length (items s3) = 74%nat
  /\ remaining (button s3) = 0
  /\ disabled (button s3) = true.
Proof. vm_compute. repeat split. Qed.

(** ** The further theorems at concrete inputs *)

Lemma empty_form_restores_listing_witness :
  JsString.allWhiteSpace " " = true
  /\ items (@sampleDocument string) = []
  /\ matches (handleFilterFormSubmit 36 (sampleBooks 3) string samplePreview
               (mkFilters " " "any" "any")
               (handleFilterFormSubmit 36 (sampleBooks 3) string samplePreview
                  (mkFilters "book 1" "any" "any") sampleDocument))
     = sampleBooks 3.
Proof.
  split; [reflexivity|]. split; [reflexivity|].
  exact (proj1 (empty_form_restores_listing 36 (sampleBooks 3) string samplePreview
                  " " _ sampleDocument eq_refl eq_refl)).
Defined.

Lemma no_results_message_witness :
  message_show (handleFilterFormSubmit 36 (sampleBooks 3) string samplePreview
                  (mkFilters "zebra" "any" "any") sampleDocument) = true
  /\ items (handleFilterFormSubmit 36 (sampleBooks 3) string samplePreview
              (mkFilters "zebra" "any" "any") sampleDocument) = [].
Proof.
  split; [reflexivity|].
  apply (proj2 (no_results_message 36 (sampleBooks 3) string samplePreview
                  (mkFilters "zebra" "any" "any") sampleDocument)).
  reflexivity.
Defined.

Lemma filter_ignores_case_of_title_witness :
  JsString.toLowerCase "BOOK 1" = JsString.toLowerCase "book 1"
  /\ handleFilterFormSubmit 36 (sampleBooks 3) string samplePreview
       (withTitle "BOOK 1" (mkFilters EmptyString "any" "fiction")) sampleDocument
     = handleFilterFormSubmit 36 (sampleBooks 3) string samplePreview
         (withTitle "book 1" (mkFilters EmptyString "any" "fiction")) sampleDocument.
Proof.
  split; [reflexivity|].
  apply (filter_ignores_case_of_title 36 (sampleBooks 3) string samplePreview
           "BOOK 1" "book 1"). reflexivity.
Defined.

Lemma reachable_invariant_witness :
  reachable 36 (sampleBooks 40) sampleAuthors string samplePreview sampleYear
    (run 36 (sampleBooks 40) sampleAuthors string samplePreview sampleYear
         [ListButtonClick; ListItemClick [Some "3"%string]; BookPreviewCloseClick]
         (load 36 (sampleBooks 40) string samplePreview sampleDocument))
  /\ 1 <= page (run 36 (sampleBooks 40) sampleAuthors string samplePreview sampleYear
                   [ListButtonClick; ListItemClick [Some "3"%string]; BookPreviewCloseClick]
                   (load 36 (sampleBooks 40) string samplePreview sampleDocument)).
Proof.
  assert (Hr : reachable 36 (sampleBooks 40) sampleAuthors string samplePreview sampleYear
                 (run 36 (sampleBooks 40) sampleAuthors string samplePreview sampleYear
                      [ListButtonClick; ListItemClick [Some "3"%string];
                       BookPreviewCloseClick]
                      (load 36 (sampleBooks 40) string samplePreview sampleDocument))).
  { exists sampleDocument. eexists. reflexivity. }
  split; [exact Hr|].
  exact (proj1 (reachable_invariant 36 (sampleBooks 40) sampleAuthors string
                  samplePreview sampleYear _ Hr)).
Defined.

Lemma rendered_from_matches_witness :
  items (@sampleDocument string) = []
  /\ In "0"%string
        (items (run 36 (sampleBooks 3) sampleAuthors string samplePreview sampleYear
                    [FilterFormSubmit (mkFilters "book" "any" "any")]
                    (load 36 (sampleBooks 3) string samplePreview sampleDocument)))
  /\ exists b,
       In b (matches (run 36 (sampleBooks 3) sampleAuthors string samplePreview
                          sampleYear
                          [FilterFormSubmit (mkFilters "book" "any" "any")]
                          (load 36 (sampleBooks 3) string samplePreview sampleDocument)))
       /\ In b (sampleBooks 3)
       /\ "0"%string = samplePreview b.
Proof.
  assert (Hin : In "0"%string
                  (items (run 36 (sampleBooks 3) sampleAuthors string samplePreview
                              sampleYear
                              [FilterFormSubmit (mkFilters "book" "any" "any")]
                              (load 36 (sampleBooks 3) string samplePreview
                                    sampleDocument)))).
  { left. reflexivity. }
  split; [reflexivity|]. split; [exact Hin|].
  exact (rendered_from_matches 36 (sampleBooks 3) sampleAuthors string samplePreview
           sampleYear sampleDocument _ "0"%string eq_refl Hin).
Defined.

Lemma other_events_keep_listing_witness :
  rendersPreviews (ListItemClick [Some "1"%string]) = false
  /\ items (dispatch 36 (sampleBooks 3) sampleAuthors string samplePreview sampleYear
              (ListItemClick [Some "1"%string])
              (load 36 (sampleBooks 3) string samplePreview sampleDocument))
     = items (load 36 (sampleBooks 3) string samplePreview sampleDocument).
Proof.
  split; [reflexivity|].
  apply (other_events_keep_listing 36 (sampleBooks 3) sampleAuthors string
           samplePreview sampleYear (ListItemClick [Some "1"%string])
           (load 36 (sampleBooks 3) string samplePreview sampleDocument) eq_refl).
Defined.

Lemma short_lists_render_completely_witness :
  (arrayLength (sampleBooks 20) <= 36
   /\ items (load 36 (sampleBooks 20) string samplePreview sampleDocument)
      = items sampleDocument ++ map samplePreview (sampleBooks 20))
  /\ (36 < arrayLength (sampleBooks 50) <= 72
      /\ items (handleListButtonClick 36 string samplePreview
                  (load 36 (sampleBooks 50) string samplePreview sampleDocument))
         = items sampleDocument ++ map samplePreview (sampleBooks 50)).
Proof.
  assert (H20 : arrayLength (sampleBooks 20) <= 36) by (vm_compute; discriminate).
  assert (H50 : 36 < arrayLength (sampleBooks 50) <= 72)
    by (split; vm_compute; [reflexivity | discriminate]).
  split.
  - split; [exact H20|].
    apply (proj1 (short_lists_render_completely 36 (sampleBooks 20) string
                    samplePreview sampleDocument eq_refl) H20).
  - split; [exact H50|].
    apply (proj2 (short_lists_render_completely 36 (sampleBooks 50) string
                    samplePreview sampleDocument eq_refl) H50).
Defined.

Lemma show_more_appends_witness :
  0 <= page (load 36 (sampleBooks 108) string samplePreview sampleDocument)
  /\ page (handleListButtonClick 36 string samplePreview
             (load 36 (sampleBooks 108) string samplePreview sampleDocument)) = 1 + 1.
Proof.
  assert (H : 0 <= page (load 36 (sampleBooks 108) string samplePreview sampleDocument))
    by (vm_compute; discriminate).
  split; [exact H|].
  apply (show_more_appends 36 string samplePreview
           (load 36 (sampleBooks 108) string samplePreview sampleDocument) eq_refl H).
Defined.

Lemma sampleBooks_3_unique : NoDup (map book_id (sampleBooks 3)).
Proof.
  repeat constructor; simpl; intuition discriminate.
Qed.

Lemma click_opens_clicked_book_witness :
  In (sampleBook 1) (sampleBooks 3)
  /\ book_id (sampleBook 1) <> EmptyString
  /\ detail_title (detail
       (handleListItemClick (sampleBooks 3) sampleAuthors string sampleYear
          ([None; Some EmptyString] ++ Some (book_id (sampleBook 1)) :: [None])
          sampleDocument))
     = book_title (sampleBook 1).
Proof.
  assert (Hin : In (sampleBook 1) (sampleBooks 3)) by (right; left; reflexivity).
  assert (Hne : book_id (sampleBook 1) <> EmptyString) by discriminate.
  split; [exact Hin|]. split; [exact Hne|].
  apply (click_opens_clicked_book (sampleBooks 3) sampleAuthors string sampleYear
           (sampleBook 1) [None; Some EmptyString] [None] sampleDocument
           sampleBooks_3_unique Hin Hne).
  intros node [<- | [<- | []]]; [now left | now right].
Defined.

Lemma theme_submission_witness :
  sampleCss (templateValue (Some "dusk"%string)) = None
  /\ updateDarkLightMode sampleCss (Some "dusk"%string) (mkSettings true [])
     = TypeError (mkSettings true [])
  /\ sampleCss (templateValue None) = None
  /\ updateDarkLightMode sampleCss None (mkSettings true [])
     = TypeError (mkSettings true [])
  /\ sampleCss (templateValue (Some "constructor"%string)) = Some (None, None)
  /\ updateDarkLightMode sampleCss (Some "constructor"%string) (mkSettings true [])
     = Normal (mkSettings false
                 [("--color-dark", "undefined"); ("--color-light", "undefined")]%string)
  /\ sampleCss (templateValue (Some "night"%string))
     = Some (Some "255, 255, 255", Some "10, 10, 20")%string
  /\ updateDarkLightMode sampleCss (Some "night"%string) (mkSettings true [])
     = Normal (mkSettings false
                 [("--color-dark", "255, 255, 255"); ("--color-light", "10, 10, 20")]%string).
Proof.
  split; [reflexivity|]. split.
  { apply (proj1 (theme_submission sampleCss (Some "dusk"%string) (mkSettings true []))).
    reflexivity. }
  split; [reflexivity|]. split.
  { apply (proj1 (theme_submission sampleCss None (mkSettings true []))).
    reflexivity. }
  split; [reflexivity|]. split.
  { apply (proj2 (proj2 (theme_submission sampleCss (Some "constructor"%string)
                           (mkSettings true [])))).
    reflexivity. }
  split; [reflexivity|].
  apply (proj1 (proj2 (theme_submission sampleCss (Some "night"%string)
                         (mkSettings true [])))
           (Some "255, 255, 255"%string, Some "10, 10, 20"%string)).
  reflexivity.
Defined.
